(** * Time tracker (stopwatch / timer): session accounting, verified

    A shallow embedding of the tracker component [src/app/page.tsx]
    (the [useCallback] revision, lines 1-565) and of the two revisions of the
    sessions route ([src/app/api/sessions/route.ts] and its successor with the
    "Replace all" logic).

    Conventions of the embedding.
    - Wall-clock instants ([Date.now()], [startTime], [endTime]) are integral
      milliseconds, a [Z].  Every operation the controller performs on them
      (subtraction, [Math.floor(x / 1000)], comparison) is exact on doubles
      below 2^53, so [Z] arithmetic with floor division is what the code
      computes.
    - A controller Number that may be [NaN] (anything that went through
      [parseInt]) is a [number]: [NaN] or an integer.  Timer values come
      from what the user types; the arithmetic on them is exact as long as
      they are safe integers (at most 2^53 - 1 in magnitude).
    - The minutes the aggregation code accumulates ([duration / 60],
      [ms / 1000 / 60]) are genuine IEEE-754 binary64 values, modelled with
      the Standard Library's [SpecFloat] at precision 53.
    - React state is a record; a handler is a function from the render it was
      created in (the values its closure captured) and the pending world to
      the next world; setters are applied in program order.  A handler that
      throws does so before its first setter, which its [Outcome] records.
    - Local time is UTC shifted by a fixed zone offset [tz] in minutes (no
      daylight-saving changes). *)

From Stdlib Require Import ZArith List String Ascii Bool Lia.
From Stdlib Require Import Permutation Sorted.
From Stdlib Require Import Floats.SpecFloat.
Import ListNotations.
Open Scope Z_scope.

(** ** JavaScript values *)

Module JS.

(** An integral Number or NaN. *)
Inductive number : Type :=
| NaN
| Num (z : Z).

(** [!x] is false exactly for a non-zero, non-NaN number. *)
Definition truthy (n : number) : bool :=
  match n with
  | NaN => false
  | Num z => negb (z =? 0)
  end.

(** A string is truthy when it is not empty. *)
Definition truthyS (s : option string) : bool :=
  match s with
  | Some (String _ _) => true
  | _ => false
  end.

(** [a - b] and [a * b]: the exact result, which is the double the engine
    computes whenever it is a safe integer. *)
Definition sub (a b : number) : number :=
  match a, b with
  | Num x, Num y => Num (x - y)
  | _, _ => NaN
  end.

Definition mul (a b : number) : number :=
  match a, b with
  | Num x, Num y => Num (x * y)
  | _, _ => NaN
  end.

(** [Math.floor(a / 1000)]. *)
Definition floorDiv1000 (a : number) : number :=
  match a with
  | Num x => Num (x / 1000)
  | NaN => NaN
  end.

(** [Math.max(a, b)]: NaN as soon as one argument is. *)
Definition max (a b : number) : number :=
  match a, b with
  | Num x, Num y => Num (Z.max x y)
  | _, _ => NaN
  end.

(** [a <= b]: false as soon as one side is NaN. *)
Definition leb (a b : number) : bool :=
  match a, b with
  | Num x, Num y => x <=? y
  | _, _ => false
  end.

(** [a || b] on numbers. *)
Definition or_else (a b : number) : number :=
  if truthy a then a else b.

(** *** [parseInt(s, 10)]

    Leading white space (the ASCII part of it), an optional sign, then the
    longest run of decimal digits; NaN when there is none. *)

Definition isWhite (c : ascii) : bool :=
  let n := nat_of_ascii c in
  ((9 <=? n) && (n <=? 13))%nat || (n =? 32)%nat.

Fixpoint trimStart (s : string) : string :=
  match s with
  | String c r => if isWhite c then trimStart r else s
  | EmptyString => EmptyString
  end.

Definition digitOf (c : ascii) : option Z :=
  let n := nat_of_ascii c in
  if ((48 <=? n) && (n <=? 57))%nat then Some (Z.of_nat n - 48) else None.

(** The longest prefix of decimal digits, accumulated most significant
    first; [None] when the prefix is empty. *)
Fixpoint digits (s : string) (acc : option Z) : option Z :=
  match s with
  | String c r =>
      match digitOf c with
      | Some d =>
          digits r (Some (10 * match acc with Some a => a | None => 0 end + d))
      | None => acc
      end
  | EmptyString => acc
  end.

Definition parseInt (s : string) : number :=
  let t := trimStart s in
  let '(neg, body) :=
    match t with
    | String "-" r => (true, r)
    | String "+" r => (false, r)
    | _ => (false, t)
    end in
  match digits body None with
  | Some v => Num (if neg then - v else v)
  | None => NaN
  end.

(** *** [Number.prototype.toString] on an integer

    Plain decimal digits, as JavaScript prints integers below 1e21. *)

Definition digitChar (d : Z) : ascii :=
  ascii_of_nat (48 + Z.to_nat (d mod 10)).

Fixpoint natToString (fuel : nat) (n : Z) (acc : string) : string :=
  match fuel with
  | O => acc
  | S f =>
      let acc' := String (digitChar n) acc in
      if n / 10 =? 0 then acc' else natToString f (n / 10) acc'
  end.

Definition toString (z : Z) : string :=
  let body := natToString (S (Z.to_nat (Z.log2 (Z.abs z)))) (Z.abs z) "" in
  if z <? 0 then String "-" body else body.

Definition numberToString (n : number) : string :=
  match n with
  | Num z => toString z
  | NaN => "NaN"
  end.

(** *** binary64 *)

Definition float : Type := spec_float.
Definition prec : Z := 53.
Definition emax : Z := 1024.

(** The double nearest to an integer (exact below 2^53). *)
Definition ofZ (z : Z) : float := binary_normalize prec emax z 0 false.
Definition fadd : float -> float -> float := SFadd prec emax.
Definition fmul : float -> float -> float := SFmul prec emax.
Definition fdiv : float -> float -> float := SFdiv prec emax.

(** [Math.min(a, b)]: NaN as soon as one argument is, and -0 below +0. *)
Definition fmin (a b : float) : float :=
  match a, b with
  | S754_zero sa, S754_zero sb => S754_zero (sa || sb)
  | _, _ =>
      match SFcompare a b with
      | Some Gt => b
      | Some _ => a
      | None => S754_nan
      end
  end.

(** [a > b]. *)
Definition fgtb (a b : float) : bool := SFltb b a.

(** [Math.round(x)]: the integer nearest to [x], ties towards +infinity;
    a double with a non-negative exponent is already integral. *)
Definition round (x : float) : float :=
  match x with
  | S754_finite s m e =>
      if 0 <=? e then x
      else
        let den := Z.pow 2 (- e) in
        let num := if s then Z.neg m else Z.pos m in
        let r := (2 * num + den) / (2 * den) in
        if (r =? 0) && s then S754_zero true else ofZ r
  | _ => x
  end.

End JS.

(** ** Dates

    [Date] works on the proleptic Gregorian calendar.  A day number counts
    days since 1970-01-01; months are numbered from 0 as [getMonth] and
    [setMonth] do. *)

Module JSDate.

Import JS.
Local Open Scope string_scope.
Local Open Scope Z_scope.

Definition msPerDay : Z := 86400000.
Definition msPerHour : Z := 3600000.
Definition msPerMinute : Z := 60000.

(** A time value outside +-8.64e15 ms is an invalid Date. *)
Definition validTime (t : Z) : bool := Z.abs t <=? 8640000000000000.

Definition day (t : Z) : Z := t / msPerDay.
Definition timeWithinDay (t : Z) : Z := t mod msPerDay.

(** Year, month (0-11) and day of the month (1-31) of a day number. *)
Definition civilFromDays (n : Z) : Z * Z * Z :=
  let z := n + 719468 in
  let era := z / 146097 in
  let doe := z - era * 146097 in
  let yoe := (doe - doe / 1460 + doe / 36524 - doe / 146096) / 365 in
  let doy := doe - (365 * yoe + yoe / 4 - yoe / 100) in
  let mp := (5 * doy + 2) / 153 in
  let d := doy - (153 * mp + 2) / 5 + 1 in
  let m := if mp <? 10 then mp + 2 else mp - 10 in
  let y := yoe + era * 400 + (if m <=? 1 then 1 else 0) in
  (y, m, d).

(** Day number of the first day of month [m] (0-11) of year [y], plus
    [d - 1]: [MakeDay] for a month already in range. *)
Definition daysFromCivil (y m d : Z) : Z :=
  let y' := if m <=? 1 then y - 1 else y in
  let era := y' / 400 in
  let yoe := y' - era * 400 in
  let mp := if m <=? 1 then m + 10 else m - 2 in
  let doy := (153 * mp + 2) / 5 + d - 1 in
  let doe := yoe * 365 + yoe / 4 - yoe / 100 + doy in
  era * 146097 + doe - 719468.

Definition isLeap (y : Z) : bool :=
  (y mod 4 =? 0) && (negb (y mod 100 =? 0) || (y mod 400 =? 0)).

(** Length of month [m] (0-11) of year [y]. *)
Definition daysInMonth (y m : Z) : Z :=
  if m =? 1 then (if isLeap y then 29 else 28)
  else if (m =? 3) || (m =? 5) || (m =? 8) || (m =? 10) then 30 else 31.

(** [MakeDay(y, m, d)]: a month outside 0-11 carries into the year, a day
    outside the month carries into the following (or preceding) months. *)
Definition makeDay (y m d : Z) : Z :=
  daysFromCivil (y + m / 12) (m mod 12) 1 + (d - 1).

(** [padStart(k, '0')] of a non-negative integer. *)
Fixpoint pad (k : nat) (n : Z) (acc : string) : string :=
  match k with
  | O => acc
  | S k' => pad k' (n / 10) (String (digitChar n) acc)
  end.

Definition yearString (y : Z) : string :=
  if (0 <=? y) && (y <=? 9999) then pad 4 y ""
  else String (if y <? 0 then "-"%char else "+"%char) (pad 6 (Z.abs y) "").

Definition dateString (ymd : Z * Z * Z) : string :=
  let '(y, m, d) := ymd in
  yearString y ++ "-" ++ pad 2 (m + 1) "" ++ "-" ++ pad 2 d "".

Definition timeString (ms : Z) : string :=
  pad 2 (ms / msPerHour) "" ++ ":" ++ pad 2 (ms / msPerMinute mod 60) ""
  ++ ":" ++ pad 2 (ms / 1000 mod 60) "" ++ "." ++ pad 3 (ms mod 1000) "".

(** [new Date(t).toISOString()], for a valid time value. *)
Definition toISOString (t : Z) : string :=
  dateString (civilFromDays (day t)) ++ "T" ++ timeString (timeWithinDay t) ++ "Z".

(** [s.split('T')[0]]: what precedes the first T. *)
Fixpoint splitT0 (s : string) : string :=
  match s with
  | String c r => if Ascii.eqb c "T" then "" else String c (splitT0 r)
  | EmptyString => ""
  end.

(** The text holds no T. *)
Fixpoint noT (s : string) : bool :=
  match s with
  | String c r => negb (Ascii.eqb c "T") && noT r
  | EmptyString => true
  end.

(** [new Date(t).toISOString().split('T')[0]]. *)
Definition isoDate (t : Z) : string := splitT0 (toISOString t).

(** The calendar date a clock in the zone [tz] minutes east of Greenwich
    shows at instant [t]. *)
Definition localDate (tz t : Z) : string :=
  dateString (civilFromDays (day (t + tz * msPerMinute))).

(** Local midnight, [new Date(y, m, d)] in the zone [tz], of a local date
    given as in [MakeDay] (the years 0 to 99, which the constructor reads as
    1900 to 1999, aside). *)
Definition localTime (tz y m d : Z) : Z :=
  makeDay y m d * msPerDay - tz * msPerMinute.

(** [getFullYear()], [getMonth()], [getDate()] of instant [t]. *)
Definition localCivil (tz t : Z) : Z * Z * Z :=
  civilFromDays (day (t + tz * msPerMinute)).

(** [new Date(t).setHours(h, mi, s, ms)] as a time value. *)
Definition setHours (tz t h mi s ms : Z) : Z :=
  day (t + tz * msPerMinute) * msPerDay
  + h * msPerHour + mi * msPerMinute + s * 1000 + ms - tz * msPerMinute.

End JSDate.

(** ** Data model *)

Inductive Mode : Type := stopwatch | timer.
Inductive TimeRange : Type := today | week | month | year.

Record Session : Type := mkSession {
  s_startTime : Z;
  s_endTime : option Z;
  s_duration : Z;
  s_mode : Mode;
  s_date : string
}.

Record DayData : Type := mkDayData {
  d_date : string;
  d_totalMinutes : JS.float;
  d_sessions : list Session
}.

(** ** Tracker controller *)

Module Controller.

Import JS JSDate.

(** The component's state variables. *)
Record State : Type := mkState {
  mode : Mode;
  isRunning : bool;
  elapsedTime : number;
  timerDuration : number;
  timerRemaining : number;
  startTime : option number;
  sessions : list Session;
  timeRange : TimeRange;
  isEditingTimer : bool;
  tempMinutes : string
}.

(** What the [allSessions] entry holds: nothing, text that [JSON.parse]
    rejects, or the encoding of a session list. *)
Inductive Archive : Type :=
| ArchiveAbsent
| ArchiveCorrupt
| ArchiveOf (l : list Session).

(** The entries of [localStorage] the component uses. *)
Record LocalStorage : Type := mkLocalStorage {
  ls_trackerMode : option Mode;
  ls_startTime : option string;
  ls_timerStartTime : option string;
  ls_timerDuration : option string;
  ls_allSessions : Archive
}.

Record World : Type := mkWorld {
  ui : State;
  ls : LocalStorage
}.

Definition initialState : State :=
  {| mode := stopwatch; isRunning := false; elapsedTime := Num 0;
     timerDuration := Num (25 * 60); timerRemaining := Num (25 * 60);
     startTime := None; sessions := []; timeRange := today;
     isEditingTimer := false; tempMinutes := "25" |}.

(** *** State setters *)

Definition onUi (f : State -> State) (w : World) : World :=
  {| ui := f (ui w); ls := ls w |}.

Definition onLs (f : LocalStorage -> LocalStorage) (w : World) : World :=
  {| ui := ui w; ls := f (ls w) |}.

Definition setMode (v : Mode) : World -> World :=
  onUi (fun s =>
    mkState v (isRunning s) (elapsedTime s) (timerDuration s) (timerRemaining s)
            (startTime s) (sessions s) (timeRange s) (isEditingTimer s) (tempMinutes s)).

Definition setIsRunning (v : bool) : World -> World :=
  onUi (fun s =>
    mkState (mode s) v (elapsedTime s) (timerDuration s) (timerRemaining s)
            (startTime s) (sessions s) (timeRange s) (isEditingTimer s) (tempMinutes s)).

Definition setElapsedTime (v : number) : World -> World :=
  onUi (fun s =>
    mkState (mode s) (isRunning s) v (timerDuration s) (timerRemaining s)
            (startTime s) (sessions s) (timeRange s) (isEditingTimer s) (tempMinutes s)).

Definition setTimerDuration (v : number) : World -> World :=
  onUi (fun s =>
    mkState (mode s) (isRunning s) (elapsedTime s) v (timerRemaining s)
            (startTime s) (sessions s) (timeRange s) (isEditingTimer s) (tempMinutes s)).

Definition setTimerRemaining (v : number) : World -> World :=
  onUi (fun s =>
    mkState (mode s) (isRunning s) (elapsedTime s) (timerDuration s) v
            (startTime s) (sessions s) (timeRange s) (isEditingTimer s) (tempMinutes s)).

Definition setStartTime (v : option number) : World -> World :=
  onUi (fun s =>
    mkState (mode s) (isRunning s) (elapsedTime s) (timerDuration s) (timerRemaining s)
            v (sessions s) (timeRange s) (isEditingTimer s) (tempMinutes s)).

Definition setSessions (v : list Session) : World -> World :=
  onUi (fun s =>
    mkState (mode s) (isRunning s) (elapsedTime s) (timerDuration s) (timerRemaining s)
            (startTime s) v (timeRange s) (isEditingTimer s) (tempMinutes s)).

Definition setIsEditingTimer (v : bool) : World -> World :=
  onUi (fun s =>
    mkState (mode s) (isRunning s) (elapsedTime s) (timerDuration s) (timerRemaining s)
            (startTime s) (sessions s) (timeRange s) v (tempMinutes s)).

(** *** [localStorage.setItem] and [removeItem], one pair per key *)

Definition putTrackerMode (v : option Mode) : World -> World :=
  onLs (fun l =>
    mkLocalStorage v (ls_startTime l) (ls_timerStartTime l) (ls_timerDuration l)
                   (ls_allSessions l)).

Definition putStartTime (v : option string) : World -> World :=
  onLs (fun l =>
    mkLocalStorage (ls_trackerMode l) v (ls_timerStartTime l) (ls_timerDuration l)
                   (ls_allSessions l)).

Definition putTimerStartTime (v : option string) : World -> World :=
  onLs (fun l =>
    mkLocalStorage (ls_trackerMode l) (ls_startTime l) v (ls_timerDuration l)
                   (ls_allSessions l)).

Definition putTimerDuration (v : option string) : World -> World :=
  onLs (fun l =>
    mkLocalStorage (ls_trackerMode l) (ls_startTime l) (ls_timerStartTime l) v
                   (ls_allSessions l)).

Definition putAllSessions (v : Archive) : World -> World :=
  onLs (fun l =>
    mkLocalStorage (ls_trackerMode l) (ls_startTime l) (ls_timerStartTime l)
                   (ls_timerDuration l) v).

(** Statements of a handler, in program order. *)
Notation "w |> f" := (f w) (at level 45, left associativity, only parsing).

(** The text behind a possibly absent entry, [s || '0'] included. *)
Definition textOr (s : option string) (d : string) : string :=
  match s with
  | Some (String c r) => String c r
  | _ => d
  end.

(** *** The handlers

    A handler takes the render [c] whose variables its closure captured and
    the clock reading [now] where it calls [Date.now()]. *)

Definition loadSessions (w : World) : World :=
  match ls_allSessions (ls w) with
  | ArchiveOf l => w |> setSessions l
  | ArchiveCorrupt => w
  | ArchiveAbsent => w
  end.

Definition saveSessions (newSessions : list Session) (w : World) : World :=
  w |> setSessions newSessions |> putAllSessions (ArchiveOf newSessions).

(** The effect run once on mount. *)
Definition mount (now : Z) (w : World) : World :=
  let savedMode := ls_trackerMode (ls w) in
  let savedStartTime := ls_startTime (ls w) in
  let savedTimerDuration := ls_timerDuration (ls w) in
  let savedTimerStart := ls_timerStartTime (ls w) in
  let w1 := match savedMode with Some m => w |> setMode m | None => w end in
  let w2 :=
    if truthyS savedTimerDuration then
      let duration := parseInt (textOr savedTimerDuration "") in
      w1 |> setTimerDuration duration |> setTimerRemaining duration
    else w1 in
  let w3 :=
    if truthyS savedStartTime then
      let start := parseInt (textOr savedStartTime "") in
      let w' := w2 |> setStartTime (Some start) |> setIsRunning true in
      match savedMode with
      | Some stopwatch =>
          w' |> setElapsedTime (floorDiv1000 (sub (Num now) start))
      | _ =>
          if truthyS savedTimerStart && truthyS savedTimerDuration then
            let timerStart := parseInt (textOr savedTimerStart "") in
            let elapsed := floorDiv1000 (sub (Num now) timerStart) in
            let remaining :=
              max (Num 0) (sub (parseInt (textOr savedTimerDuration "0")) elapsed) in
            w' |> setTimerRemaining remaining
          else w'
      end
    else w2 in
  loadSessions w3.

(** How a handler ends: it returns, or an exception leaves it before any
    setter has run. *)
Inductive Outcome : Type :=
| Returned (w : World)
| Threw.

Definition andThen (o : Outcome) (k : World -> World) : Outcome :=
  match o with
  | Returned w => Returned (k w)
  | Threw => Threw
  end.

(** The world once the event is over: an exception loses the event. *)
Definition settle (w : World) (o : Outcome) : World :=
  match o with
  | Returned w' => w'
  | Threw => w
  end.

(** [handleStop].  [new Date(startTime).toISOString()] throws a RangeError on
    an invalid time value, while the session object is being built. *)
Definition handleStop (c : State) (now : Z) (w : World) : Outcome :=
  match startTime c with
  | Some (Num start) =>
      if start =? 0 then Returned w
      else if negb (validTime start) then Threw
      else
        let endTime := now in
        let duration := (endTime - start) / 1000 in
        let session :=
          {| s_startTime := start; s_endTime := Some endTime;
             s_duration := duration; s_mode := mode c;
             s_date := isoDate start |} in
        let newSessions := sessions c ++ [session] in
        let w' :=
          w |> saveSessions newSessions
            |> setIsRunning false
            |> setStartTime None
            |> putStartTime None
            |> putTimerStartTime None in
        match mode c with
        | stopwatch => Returned (w' |> setElapsedTime (Num 0))
        | timer => Returned (w' |> setTimerRemaining (timerDuration c))
        end
  | _ => Returned w
  end.

(** One firing of the interval the running effect installs.  The updater
    passed to [setTimerRemaining] reads the pending value, calls [handleStop]
    and then returns 0; the returned value is taken as the one stored, after
    the write [handleStop] makes to the same variable.  Nothing proved below
    depends on which of the two writes comes last. *)
Definition tick (c : State) (now : Z) (w : World) : Outcome :=
  if negb (isRunning c) then Returned w
  else
    match mode c, startTime c with
    | stopwatch, Some start =>
        if truthy start then
          Returned (w |> setElapsedTime (floorDiv1000 (sub (Num now) start)))
        else Returned w
    | stopwatch, None => Returned w
    | timer, _ =>
        let prev := timerRemaining (ui w) in
        let newRemaining := sub prev (Num 1) in
        if leb newRemaining (Num 0) then
          andThen (handleStop c now w) (setTimerRemaining (Num 0))
        else Returned (w |> setTimerRemaining newRemaining)
    end.

Definition handleStart (c : State) (now : Z) (w : World) : World :=
  let w' :=
    w |> setStartTime (Some (Num now))
      |> setIsRunning true
      |> putTrackerMode (Some (mode c))
      |> putStartTime (Some (toString now)) in
  match mode c with
  | timer =>
      w' |> putTimerStartTime (Some (toString now))
         |> putTimerDuration (Some (numberToString (timerDuration c)))
         |> setTimerRemaining (timerDuration c)
  | stopwatch => w' |> setElapsedTime (Num 0)
  end.

Definition handleReset (c : State) (w : World) : World :=
  w |> setIsRunning false
    |> setStartTime None
    |> setElapsedTime (Num 0)
    |> setTimerRemaining (timerDuration c)
    |> putStartTime None
    |> putTimerStartTime None.

Definition switchMode (c : State) (newMode : Mode) (now : Z) (w : World) : Outcome :=
  let stopped := if isRunning c then handleStop c now w else Returned w in
  andThen stopped (fun w' =>
    w' |> setMode newMode
       |> setElapsedTime (Num 0)
       |> setTimerRemaining (timerDuration c)).

Definition setTimerMinutes (c : State) (w : World) : World :=
  let minutes := or_else (parseInt (tempMinutes c)) (Num 25) in
  let seconds := mul minutes (Num 60) in
  w |> setTimerDuration seconds
    |> setTimerRemaining seconds
    |> setIsEditingTimer false.

(** Whether a render holds a start instant that [!startTime] lets through. *)
Definition active (c : State) : bool :=
  match startTime c with
  | Some n => truthy n
  | None => false
  end.

(** *** Events of a settled component

    Between two events React has re-rendered, so the handler that runs was
    created in the render of the current state. *)
Inductive Event : Type :=
| Start
| Stop
| Reset
| Switch (m : Mode)
| SetMinutes
| Tick.

Definition step (e : Event) (now : Z) (w : World) : World :=
  match e with
  | Start => handleStart (ui w) now w
  | Stop => settle w (handleStop (ui w) now w)
  | Reset => handleReset (ui w) w
  | Switch m => settle w (switchMode (ui w) m now w)
  | SetMinutes => setTimerMinutes (ui w) w
  | Tick => settle w (tick (ui w) now w)
  end.

(** A freshly loaded component over an empty [localStorage]. *)
Definition idleWorld : World :=
  {| ui := initialState;
     ls := mkLocalStorage None None None None ArchiveAbsent |}.

(** An idle timer render whose minutes field holds [entry]. *)
Definition editingState (entry : string) : State :=
  {| mode := timer; isRunning := false; elapsedTime := Num 0;
     timerDuration := Num 600; timerRemaining := Num 600;
     startTime := None; sessions := []; timeRange := today;
     isEditingTimer := true; tempMinutes := entry |}.

(** A 25-minute timer started at 2024-01-01T19:30:00Z. *)
Definition t0 : Z := 1704137400000.

Definition runningTimer : World :=
  step Start t0 (step (Switch timer) t0 idleWorld).

(** A stopwatch started at the same instant. *)
Definition runningStopwatch : World := step Start t0 idleWorld.


(** The same timer one second before it runs out. *)
Definition lastSecond : World := runningTimer |> setTimerRemaining (Num 1).


(** What the specification asks of a timer tick, in its words: the remaining
    time derived afresh from the start instant and the fixed duration,
    [max(0, timerDuration - floor((now - startTime) / 1000))]. *)
Definition specRemaining (start : Z) (duration : Z) (now : Z) : Z :=
  Z.max 0 (duration - (now - start) / 1000).

End Controller.

(** ** Aggregation engine *)

Module Aggregation.

Import JS JSDate Controller.

(** *** [getFilteredSessions] *)

(** The boundary each range compares against: local midnight of today,
    walked back with [setDate], [setMonth] or [setFullYear]. *)
Definition rangeBoundary (tz : Z) (range : TimeRange) (now : Z) : Z :=
  let '(y, m, d) := localCivil tz now in
  match range with
  | today => localTime tz y m d
  | week => localTime tz y m (d - 7)
  | month => localTime tz y (m - 1) d
  | year => localTime tz (y - 1) m d
  end.

(** [sessionDate >= boundary]; an invalid Date compares false. *)
Definition inRange (tz : Z) (range : TimeRange) (now : Z) (session : Session) : bool :=
  validTime (s_startTime session)
  && (rangeBoundary tz range now <=? s_startTime session).

Definition getFilteredSessions (tz : Z) (c : State) (now : Z) : list Session :=
  filter (inRange tz (timeRange c) now) (sessions c).

(** *** [getDayData]

    The [Map] keeps its entries in insertion order. *)
Definition DayMap : Type := list (string * DayData).

Fixpoint has (date : string) (dayMap : DayMap) : bool :=
  match dayMap with
  | [] => false
  | (k, _) :: r => String.eqb k date || has date r
  end.

(** [dayMap.set(date, v)] for a key that is not yet present. *)
Definition setNew (date : string) (v : DayData) (dayMap : DayMap) : DayMap :=
  dayMap ++ [(date, v)].

(** The two updates made through the reference [dayMap.get(date)]. *)
Fixpoint addTo (date : string) (session : Session) (dayMap : DayMap) : DayMap :=
  match dayMap with
  | [] => []
  | (k, v) :: r =>
      if String.eqb k date then
        (k, {| d_date := d_date v;
               d_totalMinutes :=
                 fadd (d_totalMinutes v) (fdiv (ofZ (s_duration session)) (ofZ 60));
               d_sessions := d_sessions v ++ [session] |}) :: r
      else (k, v) :: addTo date session r
  end.

(** The body of the [forEach]. *)
Definition addSession (dayMap : DayMap) (session : Session) : DayMap :=
  let date := s_date session in
  let dayMap' :=
    if has date dayMap then dayMap
    else setNew date {| d_date := date; d_totalMinutes := ofZ 0; d_sessions := [] |} dayMap in
  addTo date session dayMap'.

(** [a.localeCompare(b)], on the digit-and-hyphen keys the controller
    writes: the order of the code units. *)
Definition localeCompare (a b : string) : comparison := String.compare a b.

(** [Array.prototype.sort] with a comparator: a stable sort. *)
Fixpoint insertSorted {A : Type} (cmp : A -> A -> comparison) (x : A) (l : list A) : list A :=
  match l with
  | [] => [x]
  | y :: r =>
      match cmp x y with
      | Gt => y :: insertSorted cmp x r
      | _ => x :: y :: r
      end
  end.

Definition sort {A : Type} (cmp : A -> A -> comparison) (l : list A) : list A :=
  fold_right (insertSorted cmp) [] l.

(** The grouping of [getDayData], from the filtered list on. *)
Definition groupByDay (filtered : list Session) : list DayData :=
  let dayMap := fold_left addSession filtered [] in
  sort (fun a b => localeCompare (d_date a) (d_date b)) (map snd dayMap).

Definition getDayData (tz : Z) (c : State) (now : Z) : list DayData :=
  groupByDay (getFilteredSessions tz c now).

(** What [getDayData] computes, stated on the list: the dates in order of
    first appearance, the sessions of a date in input order, and their
    minutes added from left to right. *)
Definition noteDate (ks : list string) (session : Session) : list string :=
  if existsb (fun k => String.eqb k (s_date session)) ks then ks
  else ks ++ [s_date session].

Definition dates (l : list Session) : list string := fold_left noteDate l [].

Definition onDate (date : string) (l : list Session) : list Session :=
  filter (fun s => String.eqb (s_date s) date) l.

Definition minutesOf (session : Session) : float :=
  fdiv (ofZ (s_duration session)) (ofZ 60).

Definition totalOf (l : list Session) : float :=
  fold_left (fun acc s => fadd acc (minutesOf s)) l (ofZ 0).

Definition bucketOf (l : list Session) (date : string) : DayData :=
  {| d_date := date;
     d_totalMinutes := totalOf (onDate date l);
     d_sessions := onDate date l |}.

(** Strictly ascending dates. *)
Definition dateLt (a b : string) : Prop := localeCompare a b = Lt.

(** *** The hour blocks of [renderTimelineBar] *)

Record HourBlock : Type := mkHourBlock {
  hour : Z;
  label : string;
  workedPercentage : float;
  workedMinutes : float
}.

Definition truthyEnd (e : option Z) : bool :=
  match e with
  | Some t => negb (t =? 0)
  | None => false
  end.

(** Today's closed sessions and, when running, the session in progress
    closed at [now]. *)
Definition allSessions (c : State) (now : Z) : list Session :=
  let today := isoDate now in
  let todaySessions :=
    filter (fun s => String.eqb (s_date s) today && truthyEnd (s_endTime s)) (sessions c) in
  match startTime c with
  | Some (Num start) =>
      if isRunning c && negb (start =? 0) then
        todaySessions
        ++ [{| s_startTime := start; s_endTime := Some now;
               s_duration := (now - start) / 1000; s_mode := mode c;
               s_date := today |}]
      else todaySessions
  | _ => todaySessions
  end.

(** The body of the inner [forEach]: one session's share of the hour. *)
Definition addWorked (hourStartTime hourEndTime : Z) (worked : float) (session : Session)
  : float :=
  match s_endTime session with
  | Some endTime =>
      if endTime =? 0 then worked
      else
        let sessionStart := Z.max (s_startTime session) hourStartTime in
        let sessionEnd := Z.min endTime hourEndTime in
        if sessionEnd >? sessionStart then
          fadd worked (fdiv (fdiv (ofZ (sessionEnd - sessionStart)) (ofZ 1000)) (ofZ 60))
        else worked
  | None => worked
  end.

Definition hourLabel (i : Z) : string :=
  if i =? 0 then "12 AM"%string
  else if i =? 12 then "12 PM"%string
  else if i <? 12 then String.append (toString i) " AM"
  else String.append (toString (i - 12)) " PM".

Definition hourBlock (tz : Z) (now : Z) (all : list Session) (i : Z) : HourBlock :=
  let hourStartTime := setHours tz now i 0 0 0 in
  let hourEndTime := setHours tz now i 59 59 999 in
  let worked := fold_left (addWorked hourStartTime hourEndTime) all (ofZ 0) in
  {| hour := i;
     label := hourLabel i;
     workedPercentage := fmin (fmul (fdiv worked (ofZ 60)) (ofZ 100)) (ofZ 100);
     workedMinutes := round worked |}.

(** [Array.from({ length: 24 }, (_, i) => ...)]. *)
Definition hours (tz : Z) (c : State) (now : Z) : list HourBlock :=
  map (fun i => hourBlock tz now (allSessions c now) (Z.of_nat i)) (seq 0 24).





(** *** Sample data

    2024-01-01T09:00:00Z, and the sessions [[09:00, 09:30)] and
    [[09:15, 10:00)] of that day, looked at at noon in the UTC zone. *)
Definition nine : Z := 1704099600000.
Definition noon : Z := nine + 3 * msPerHour.

Definition sessionA : Session :=
  {| s_startTime := nine; s_endTime := Some (nine + 30 * msPerMinute);
     s_duration := 1800; s_mode := stopwatch; s_date := "2024-01-01" |}.

Definition sessionB : Session :=
  {| s_startTime := nine + 15 * msPerMinute; s_endTime := Some (nine + 60 * msPerMinute);
     s_duration := 2700; s_mode := stopwatch; s_date := "2024-01-01" |}.

Definition timelineState : State :=
  {| mode := stopwatch; isRunning := false; elapsedTime := Num 0;
     timerDuration := Num 1500; timerRemaining := Num 1500;
     startTime := None; sessions := [sessionA; sessionB]; timeRange := today;
     isEditingTimer := false; tempMinutes := "25" |}.

(** A closed session of [duration] seconds filed under [date]. *)
Definition entry (date : string) (duration : Z) : Session :=
  {| s_startTime := nine; s_endTime := Some (nine + duration * 1000);
     s_duration := duration; s_mode := stopwatch; s_date := date |}.

Definition scenario : list Session :=
  [entry "2024-01-01" 1800; entry "2024-01-01" 1800; entry "2024-01-02" 3600].

(** Three short sessions of one day: 6, 12 and 18 seconds. *)
Definition shortSessions : list Session :=
  [entry "2024-01-01" 6; entry "2024-01-01" 12; entry "2024-01-01" 18].


End Aggregation.

(** ** Remote sync: the sessions route *)

Module Mongo.

(** The [sessions] collection, in insertion order. *)
Definition Collection : Type := list Session.

(** [find({}).toArray()]. *)
Definition findAll (coll : Collection) : list Session := coll.

(** [insertMany(docs)]: the driver rejects an empty batch. *)
Definition insertMany (docs : list Session) (coll : Collection) : option Collection :=
  match docs with
  | [] => None
  | _ => Some (coll ++ docs)
  end.

(** [deleteMany({})]. *)
Definition deleteAll (coll : Collection) : Collection := [].

(** [find({}).sort({ startTime: 1 }).toArray()]. *)
Definition findSorted (coll : Collection) : list Session :=
  Aggregation.sort (fun a b => Z.compare (s_startTime a) (s_startTime b)) coll.

End Mongo.

Inductive Response : Type :=
| Success (count : option Z)
| Failed.

(** [src/app/api/sessions/route.ts]. *)
Module Route.

Definition GET (coll : Mongo.Collection) : list Session := Mongo.findAll coll.

Definition POST (sessions : list Session) (coll : Mongo.Collection)
  : Mongo.Collection * Response :=
  match Mongo.insertMany sessions coll with
  | Some coll' => (coll', Success None)
  | None => (coll, Failed)
  end.

End Route.

(** The revision of the route with the "Replace all" logic. *)
Module RouteReplace.

Definition GET (coll : Mongo.Collection) : list Session := Mongo.findSorted coll.

Definition POST (sessions : list Session) (coll : Mongo.Collection)
  : Mongo.Collection * Response :=
  let coll1 := Mongo.deleteAll coll in
  let inserted :=
    if (0 <? Z.of_nat (List.length sessions))
    then Mongo.insertMany sessions coll1
    else Some coll1 in
  match inserted with
  | Some coll2 => (coll2, Success (Some (Z.of_nat (List.length sessions))))
  | None => (coll1, Failed)
  end.

End RouteReplace.

(** Two stored documents for the route examples. *)
Definition docA : Session := Aggregation.sessionA.
Definition docB : Session := Aggregation.sessionB.

(** ** Safe integers

    An integral [number] stands for the double of the same value.  Up to
    [Number.MAX_SAFE_INTEGER] every integer is a double, a binary64 sum,
    difference or product with such a result is exact, and [toString] prints
    plain digits; instants of the clock lie well inside this range.  Timer
    values come from what the user types and can leave it; [safe] is the
    bound under which the arithmetic on them is the engine's. *)

Module Exact.

Import JS Controller.
Local Open Scope Z_scope.

(** [Number.MAX_SAFE_INTEGER], 2^53 - 1. *)
Definition MAX_SAFE_INTEGER : Z := 9007199254740991.

Definition safe (z : Z) : Prop := - MAX_SAFE_INTEGER <= z <= MAX_SAFE_INTEGER.

(** The integer a double stands for, when it is one. *)
Definition integerOf (x : float) : option Z :=
  match x with
  | S754_zero _ => Some 0
  | S754_finite s m e =>
      let v := if s then Z.neg m else Z.pos m in
      if 0 <=? e then Some (v * 2 ^ e)
      else if v mod 2 ^ (- e) =? 0 then Some (v / 2 ^ (- e)) else None
  | _ => None
  end.

(** The seconds [setTimerMinutes] stores for an entry, computed as the
    engine does: [minutes * 60] is a binary64 product.  For an entry of at
    most 20 significant digits [parseInt] is the double nearest to the
    digits. *)
Definition storedSeconds (entry : string) : float :=
  match or_else (parseInt entry) (Num 25) with
  | Num minutes => fmul (ofZ minutes) (ofZ 60)
  | NaN => S754_nan
  end.

End Exact.

(** ** A night session east of Greenwich

    The session the controller records from 01:00 to 01:30 on 2 January 2024
    in the zone UTC+05:30, which is 19:30 to 20:00 UTC on 1 January, looked
    at at 10:00 that morning. *)

Module Night.

Import JSDate Controller.
Local Open Scope Z_scope.



End Night.

(** ** The clock display and today's summary *)

Module Display.

Import JS JSDate Controller.
Local Open Scope string_scope.
Local Open Scope Z_scope.

(** [s.padStart(2, '0')]. *)
Definition padStart2 (s : string) : string :=
  match s with
  | EmptyString => "00"
  | String c EmptyString => String "0" (String c EmptyString)
  | _ => s
  end.

(** [formatTime] on an integer: [Math.floor] of a quotient is floor
    division, [%] is the remainder with the sign of the dividend. *)
Definition formatSeconds (seconds : Z) : string :=
  let h := seconds / 3600 in
  let m := Z.rem seconds 3600 / 60 in
  let s := Z.rem seconds 60 in
  padStart2 (toString h) ++ ":" ++ padStart2 (toString m) ++ ":"
  ++ padStart2 (toString s).

(** [formatTime]: every field of NaN prints as NaN. *)
Definition formatTime (seconds : number) : string :=
  match seconds with
  | Num z => formatSeconds z
  | NaN => "NaN:NaN:NaN"
  end.

(** The sessions filed under today's date, [s.date === today]. *)
Definition todaySessions (c : State) (now : Z) : list Session :=
  filter (fun s => String.eqb (s_date s) (isoDate now)) (sessions c).

(** The [reduce] of [getTodayTotal]. *)
Definition totalSeconds (l : list Session) : Z :=
  fold_left (fun sum s => sum + s_duration s) l 0.

Definition getTodayTotal (c : State) (now : Z) : string :=
  formatTime (Num (totalSeconds (todaySessions c now))).

(** The comparator [(a, b) => b.startTime - a.startTime], by its sign. *)
Definition latestFirst (a b : Session) : comparison :=
  s_startTime b - s_startTime a ?= 0.

Definition getTodaySessions (c : State) (now : Z) : list Session :=
  Aggregation.sort latestFirst (todaySessions c now).

End Display.

(** ** Calendar dates in order *)

Module Calendar.

Import JSDate.

(** Dates compared as year, month, day. *)
Definition lexLt (a b : Z * Z * Z) : Prop :=
  let '(y1, m1, d1) := a in
  let '(y2, m2, d2) := b in
  y1 < y2 \/ (y1 = y2 /\ (m1 < m2 \/ (m1 = m2 /\ d1 < d2))).

(** A month of the year and a day of that month. *)
Definition validDate (a : Z * Z * Z) : Prop :=
  let '(y, m, d) := a in
  0 <= m <= 11 /\ 1 <= d <= daysInMonth y m.

(** The instants whose UTC year has four digits, 0000 to 9999. *)
Definition fourDigitYear (t : Z) : Prop :=
  -62167219200000 <= t < 253402300800000.

End Calendar.

(** ** Ranges of the analytics view *)

Module Ranges.

(** The ranges from the narrowest to the widest. *)
Definition rank (r : TimeRange) : Z :=
  match r with
  | today => 0
  | week => 1
  | month => 2
  | year => 3
  end.

(** [setTimeRange(range)]. *)
Definition setTimeRange (v : TimeRange) : Controller.World -> Controller.World :=
  Controller.onUi (fun s =>
    Controller.mkState
      (Controller.mode s) (Controller.isRunning s) (Controller.elapsedTime s)
      (Controller.timerDuration s) (Controller.timerRemaining s)
      (Controller.startTime s) (Controller.sessions s) v
      (Controller.isEditingTimer s) (Controller.tempMinutes s)).

End Ranges.

(** ** The timer editor *)

Module Editor.

Import JS Controller.

Definition setTempMinutes (v : string) : World -> World :=
  onUi (fun s =>
    mkState (mode s) (isRunning s) (elapsedTime s) (timerDuration s) (timerRemaining s)
            (startTime s) (sessions s) (timeRange s) (isEditingTimer s) v).

(** [Math.floor(a / 60)]. *)
Definition floorDiv60 (a : number) : number :=
  match a with
  | Num x => Num (x / 60)
  | NaN => NaN
  end.

(** The click on "Set Timer Duration". *)
Definition openTimerEditor (c : State) (w : World) : World :=
  w |> setIsEditingTimer true
    |> setTempMinutes (numberToString (floorDiv60 (timerDuration c))).

(** The field is opened and "Set" is pressed without typing. *)
Definition editUnchanged (w : World) : World :=
  let w1 := openTimerEditor (ui w) w in
  setTimerMinutes (ui w1) w1.

End Editor.

(** ** Sequences of user actions *)

Module Runs.

Import JS JSDate Controller Editor.

(** What can happen to the page: an event of the component, the click that
    opens the minutes field, typing into it, and closing and reopening the
    page. *)
Inductive Action : Type :=
| Handle (e : Event)
| OpenEditor
| TypeMinutes (v : string)
| Reload.

(** Whether the render [c] offers the action: Start is rendered while idle
    and Stop while running, the minutes field in timer mode while idle, its
    input and its Set button once it is open; the interval exists while
    running. *)
Definition offered (a : Action) (c : State) : bool :=
  match a with
  | Handle Start => negb (isRunning c)
  | Handle Stop => isRunning c
  | Handle Tick => isRunning c
  | Handle SetMinutes =>
      match mode c with
      | timer => negb (isRunning c) && isEditingTimer c
      | stopwatch => false
      end
  | Handle Reset => true
  | Handle (Switch _) => true
  | OpenEditor =>
      match mode c with
      | timer => negb (isRunning c) && negb (isEditingTimer c)
      | stopwatch => false
      end
  | TypeMinutes _ =>
      match mode c with
      | timer => negb (isRunning c) && isEditingTimer c
      | stopwatch => false
      end
  | Reload => true
  end.

(** The page is closed and opened again at [now]: the state variables start
    from their initial values, [localStorage] is what it was. *)
Definition reload (now : Z) (w : World) : World :=
  mount now {| ui := initialState; ls := ls w |}.

Definition act (a : Action) (now : Z) (w : World) : World :=
  if offered a (ui w) then
    match a with
    | Handle e => step e now w
    | OpenEditor => openTimerEditor (ui w) w
    | TypeMinutes v => setTempMinutes v w
    | Reload => reload now w
    end
  else w.

(** Actions with the clock reading at which each happens, the component
    having settled in between. *)
Fixpoint run (actions : list (Action * Z)) (w : World) : World :=
  match actions with
  | [] => w
  | (a, now) :: rest => run rest (act a now w)
  end.

(** Ticks at the given clock readings. *)
Definition ticks (clock : list Z) : list (Action * Z) :=
  map (fun now => (Handle Tick, now)) clock.

(** A clock reading of the present era: positive and a valid time value. *)
Definition sane (now : Z) : Prop := 0 < now <= 8640000000000000.

(** A session as [handleStop] builds it. *)
Definition closed (s : Session) : Prop :=
  exists endTime,
    s_endTime s = Some endTime
    /\ s_startTime s <> 0
    /\ validTime (s_startTime s) = true
    /\ s_duration s = (endTime - s_startTime s) / 1000
    /\ s_date s = isoDate (s_startTime s).

(** The run state and the resumption entries tell the same story. *)
Definition coherent (w : World) : Prop :=
  if isRunning (ui w)
  then exists t,
         startTime (ui w) = Some (Num t)
         /\ sane t
         /\ ls_startTime (ls w) = Some (toString t)
         /\ ls_trackerMode (ls w) = Some (mode (ui w))
         /\ (mode (ui w) = timer ->
             ls_timerStartTime (ls w) = Some (toString t)
             /\ ls_timerDuration (ls w)
                = Some (numberToString (timerDuration (ui w))))
  else startTime (ui w) = None
       /\ ls_startTime (ls w) = None
       /\ ls_timerStartTime (ls w) = None.

(** The archive holds the session list. *)
Definition archived (w : World) : Prop :=
  match ls_allSessions (ls w) with
  | ArchiveOf l => sessions (ui w) = l
  | ArchiveAbsent => sessions (ui w) = []
  | ArchiveCorrupt => sessions (ui w) = []
  end.

(** A page that came up running on a [startTime] entry it cannot use. *)
Definition stuck (w : World) : Prop :=
  isRunning (ui w) = true
  /\ active (ui w) = false
  /\ truthyS (ls_startTime (ls w)) = true
  /\ truthy (parseInt (textOr (ls_startTime (ls w)) "")) = false.

(** The longest timer taken into account, in minutes.  Its seconds, and
    the seconds between two clock readings added to them, are safe
    integers. *)
Definition maxMinutes : Z := 100000000000000.

(** A number of seconds of at most [maxMinutes] minutes. *)
Definition small (n : number) : Prop :=
  match n with
  | Num d => Z.abs d <= 60 * maxMinutes
  | NaN => False
  end.

(** Text that reads as at most [maxMinutes] minutes, or as no number. *)
Definition modestEntry (v : string) : Prop :=
  match parseInt v with
  | Num m => Z.abs m <= maxMinutes
  | NaN => True
  end.

(** What is typed into the minutes field is a modest entry. *)
Definition modest (a : Action) : Prop :=
  match a with
  | TypeMinutes v => modestEntry v
  | _ => True
  end.

(** The timer, the minutes field and the [timerDuration] entry hold
    nothing longer than [maxMinutes]. *)
Definition bounded (w : World) : Prop :=
  small (timerDuration (ui w))
  /\ modestEntry (tempMinutes (ui w))
  /\ match ls_timerDuration (ls w) with
     | Some text => exists d, text = toString d /\ small (Num d)
     | None => True
     end.

(** The running timer of the examples with a display that is not a
    number. *)
Definition brokenTimer : World := runningTimer |> setTimerRemaining NaN.

Definition isReset (a : Action) : bool :=
  match a with
  | Handle Reset => true
  | _ => false
  end.

End Runs.

(** * Properties *)

(** ** Dates *)

Section DateFacts.

Import JS JSDate.
Local Open Scope string_scope.
Local Open Scope Z_scope.

(** [civilFromDays] returns a month and a day in range whose day number is
    the one it was given. *)
Lemma civilFromDays_spec (n : Z) :
  let '(y, m, d) := civilFromDays n in
  daysFromCivil y m d = n /\ 0 <= m <= 11 /\ 1 <= d <= 31.
Proof.
  unfold civilFromDays, daysFromCivil.
  set (z := n + 719468).
  set (era := z / 146097).
  set (doe := z - era * 146097).
  set (yoe := (doe - doe / 1460 + doe / 36524 - doe / 146096) / 365).
  set (doy := doe - (365 * yoe + yoe / 4 - yoe / 100)).
  set (mp := (5 * doy + 2) / 153).
  assert (Hdoe : 0 <= doe < 146097) by (subst doe era; Z.div_mod_to_equations; lia).
  assert (Hyoe : 0 <= yoe <= 399) by (subst yoe; Z.div_mod_to_equations; lia).
  assert (Hdoy : 0 <= doy <= 365) by (subst doy yoe; Z.div_mod_to_equations; lia).
  assert (Hmp : 0 <= mp <= 11) by (subst mp; Z.div_mod_to_equations; lia).
  assert (Hd : 1 <= doy - (153 * mp + 2) / 5 + 1 <= 31)
    by (subst mp; Z.div_mod_to_equations; lia).
  assert (Hera : (yoe + era * 400) / 400 = era) by (Z.div_mod_to_equations; lia).
  destruct (mp <? 10) eqn:E; [apply Z.ltb_lt in E | apply Z.ltb_ge in E].
  - destruct (mp + 2 <=? 1) eqn:E2; [apply Z.leb_le in E2; lia | apply Z.leb_gt in E2].
    replace (mp + 2 - 2) with mp by lia.
    replace (yoe + era * 400 + 0) with (yoe + era * 400) by lia.
    rewrite Hera.
    replace (yoe + era * 400 - era * 400) with yoe by lia.
    split; [subst doy z doe |]; lia.
  - destruct (mp - 10 <=? 1) eqn:E2; [apply Z.leb_le in E2 | apply Z.leb_gt in E2; lia].
    replace (mp - 10 + 10) with mp by lia.
    replace (yoe + era * 400 + 1 - 1) with (yoe + era * 400) by lia.
    rewrite Hera.
    replace (yoe + era * 400 - era * 400) with yoe by lia.
    split; [subst doy z doe |]; lia.
Qed.

(** The day of the month does not exceed the length of the month. *)
Lemma civilFromDays_day (n : Z) :
  let '(y, m, d) := civilFromDays n in d <= daysInMonth y m.
Proof.
  unfold civilFromDays.
  set (z := n + 719468).
  set (era := z / 146097).
  set (doe := z - era * 146097).
  set (yoe := (doe - doe / 1460 + doe / 36524 - doe / 146096) / 365).
  set (doy := doe - (365 * yoe + yoe / 4 - yoe / 100)).
  set (mp := (5 * doy + 2) / 153).
  assert (Hdoe : 0 <= doe < 146097) by (subst doe era; Z.div_mod_to_equations; lia).
  assert (Hyoe : 0 <= yoe <= 399) by (subst yoe; Z.div_mod_to_equations; lia).
  assert (Hdoy : 0 <= doy <= 365) by (subst doy yoe; Z.div_mod_to_equations; lia).
  assert (Hmp : 0 <= mp <= 11) by (subst mp; Z.div_mod_to_equations; lia).
  assert (Hleap : doy = 365 ->
                  (yoe + 1) mod 4 = 0 /\ ((yoe + 1) mod 100 <> 0 \/ yoe = 399)).
  { subst doy yoe. Z.div_mod_to_equations. lia. }
  assert (Hd : forall k, mp = k ->
                 doy - (153 * k + 2) / 5 + 1 <= (153 * (k + 1) + 2) / 5 - (153 * k + 2) / 5).
  { intros k <-. subst mp. Z.div_mod_to_equations. lia. }
  unfold daysInMonth.
  destruct (mp <? 10) eqn:E; [apply Z.ltb_lt in E | apply Z.ltb_ge in E].
  - assert (C : mp = 0 \/ mp = 1 \/ mp = 2 \/ mp = 3 \/ mp = 4 \/ mp = 5 \/ mp = 6
                \/ mp = 7 \/ mp = 8 \/ mp = 9) by lia.
    repeat (destruct C as [C|C]); rewrite C; specialize (Hd _ C);
      cbn in Hd |- *; lia.
  - assert (C : mp = 10 \/ mp = 11) by lia.
    destruct C as [C|C]; rewrite C; specialize (Hd _ C).
    + cbn in Hd |- *. lia.
    + change (11 - 10 =? 1) with true. cbv iota.
      change ((153 * 11 + 2) / 5) with 337 in *.
      destruct (isLeap _) eqn:L; [lia|].
      assert (doy <> 365); [|lia].
      intro H365. destruct (Hleap H365) as [H4 H100].
      unfold isLeap in L. change (11 - 10 <=? 1) with true in L. cbv iota in L.
      apply andb_false_iff in L. destruct L as [L|L].
      * apply Z.eqb_neq in L. apply L. Z.div_mod_to_equations. lia.
      * apply orb_false_iff in L. destruct L as [L1 L2].
        apply negb_false_iff in L1. apply Z.eqb_eq in L1. apply Z.eqb_neq in L2.
        destruct H100 as [H100|H100].
        -- apply H100. Z.div_mod_to_equations. lia.
        -- apply L2. rewrite H100. Z.div_mod_to_equations. lia.
Qed.
(** No decimal digit is the letter T. *)
Lemma digitChar_not_T (d : Z) : Ascii.eqb (digitChar d) "T" = false.
Proof.
  unfold digitChar.
  assert (H : (Z.to_nat (d mod 10) < 10)%nat)
    by (pose proof (Z.mod_pos_bound d 10); lia).
  remember (Z.to_nat (d mod 10)) as k eqn:E. clear E.
  do 10 (destruct k as [|k]; [reflexivity|]).
  lia.
Qed.

Lemma noT_app (a b : string) : noT (a ++ b) = noT a && noT b.
Proof.
  induction a as [|c a IH]; simpl; [reflexivity|].
  now rewrite IH, andb_assoc.
Qed.

Lemma noT_pad (k : nat) : forall n acc, noT acc = true -> noT (pad k n acc) = true.
Proof.
  induction k as [|k IH]; intros n acc H; cbn [pad]; [exact H|].
  apply IH. cbn [noT]. now rewrite digitChar_not_T, H.
Qed.

Lemma noT_dateString (ymd : Z * Z * Z) : noT (dateString ymd) = true.
Proof.
  destruct ymd as [[y m] d]. unfold dateString, yearString.
  rewrite !noT_app, !noT_pad by reflexivity.
  assert (Hy : noT (if (0 <=? y) && (y <=? 9999) then pad 4 y ""
                    else String (if y <? 0 then "-"%char else "+"%char)
                                (pad 6 (Z.abs y) "")) = true).
  { destruct ((0 <=? y) && (y <=? 9999)).
    - apply noT_pad; reflexivity.
    - cbn [noT]. rewrite noT_pad by reflexivity.
      now destruct (y <? 0). }
  rewrite Hy. reflexivity.
Qed.

Lemma splitT0_app (a r : string) :
  noT a = true -> splitT0 (a ++ String "T" r) = a.
Proof.
  induction a as [|c a IH]; simpl; intro H; [reflexivity|].
  apply andb_prop in H as [Hc Ha].
  apply negb_true_iff in Hc. rewrite Hc.
  now rewrite IH.
Qed.

(** [toISOString().split('T')[0]] is the date part of the ISO text: the
    civil date of the UTC day number. *)
Lemma isoDate_dateString (t : Z) :
  isoDate t = dateString (civilFromDays (day t)).
Proof.
  unfold isoDate, toISOString.
  apply splitT0_app, noT_dateString.
Qed.

(** The local date is the ISO date of the instant shifted by the zone. *)
Lemma localDate_isoDate (tz t : Z) :
  localDate tz t = isoDate (t + tz * msPerMinute).
Proof. now rewrite isoDate_dateString. Qed.

End DateFacts.

(** ** Numbers as text *)

Section NumberText.

Import JS.
Local Open Scope string_scope.
Local Open Scope Z_scope.

Lemma digitOf_digitChar (n : Z) : digitOf (digitChar n) = Some (n mod 10).
Proof.
  unfold digitChar.
  pose proof (Z.mod_pos_bound n 10 ltac:(lia)) as Hb.
  rewrite <- (Z2Nat.id (n mod 10)) at 2 by lia.
  remember (Z.to_nat (n mod 10)) as k eqn:E.
  assert (Hk : (k < 10)%nat) by lia. clear E Hb.
  do 10 (destruct k as [|k]; [reflexivity|]). lia.
Qed.

Lemma isWhite_digitChar (n : Z) : isWhite (digitChar n) = false.
Proof.
  unfold digitChar.
  pose proof (Z.mod_pos_bound n 10 ltac:(lia)) as Hb.
  remember (Z.to_nat (n mod 10)) as k eqn:E.
  assert (Hk : (k < 10)%nat) by lia. clear E Hb.
  do 10 (destruct k as [|k]; [reflexivity|]). lia.
Qed.

Lemma digitChar_not_sign (n : Z) :
  digitChar n <> "-"%char /\ digitChar n <> "+"%char.
Proof.
  unfold digitChar.
  pose proof (Z.mod_pos_bound n 10 ltac:(lia)) as Hb.
  remember (Z.to_nat (n mod 10)) as k eqn:E.
  assert (Hk : (k < 10)%nat) by lia. clear E Hb.
  do 10 (destruct k as [|k]; [split; discriminate|]). lia.
Qed.

(** The text of a natural number starts with a digit and reads back as the
    number, whatever was read before it. *)
Lemma digits_natToString (f : nat) :
  forall n acc, 0 <= n < 2 ^ Z.of_nat (S f) ->
    (exists d r, natToString (S f) n acc = String (digitChar d) r)
    /\ exists k, forall a,
         digits (natToString (S f) n acc) a
         = digits acc (Some (match a with Some v => v | None => 0 end * k + n)).
Proof.
  induction f as [|f IH]; intros n acc Hn.
  - assert (n / 10 = 0) by (change (2 ^ Z.of_nat 1) with 2 in Hn;
                            Z.div_mod_to_equations; lia).
    cbn [natToString]. rewrite H. cbn [Z.eqb]. split; [eauto|].
    exists 10. intro a. cbn [digits]. rewrite digitOf_digitChar.
    do 2 f_equal. Z.div_mod_to_equations. lia.
  - cbn [natToString]. fold (natToString (S f)).
    destruct (Z.eqb_spec (n / 10) 0) as [E|E].
    + split; [eauto|].
      exists 10. intro a. cbn [digits]. rewrite digitOf_digitChar.
      do 2 f_equal. Z.div_mod_to_equations. lia.
    + assert (Hq : 0 <= n / 10 < 2 ^ Z.of_nat (S f)).
      { rewrite Nat2Z.inj_succ, Z.pow_succ_r in Hn by lia.
        Z.div_mod_to_equations. lia. }
      destruct (IH (n / 10) (String (digitChar n) acc) Hq) as [Hd [k Hk]].
      split; [exact Hd|].
      exists (k * 10). intro a. rewrite Hk. cbn [digits].
      rewrite digitOf_digitChar. do 2 f_equal.
      Z.div_mod_to_equations. lia.
Qed.

Lemma parseInt_minus (body : string) :
  parseInt (String "-" body)
  = match digits body None with
    | Some v => Num (- v)
    | None => NaN
    end.
Proof. reflexivity. Qed.

Lemma parseInt_digit (d : Z) (r : string) :
  parseInt (String (digitChar d) r)
  = match digits (String (digitChar d) r) None with
    | Some v => Num v
    | None => NaN
    end.
Proof.
  unfold parseInt. cbn [trimStart]. rewrite isWhite_digitChar.
  destruct (digitChar_not_sign d) as [Hm Hp].
  destruct (digitChar d) as [b0 b1 b2 b3 b4 b5 b6 b7].
  destruct b0, b1, b2, b3, b4, b5, b6, b7;
    try (exfalso; apply Hm; reflexivity);
    try (exfalso; apply Hp; reflexivity);
    reflexivity.
Qed.

(** [parseInt] reads back what [toString] wrote. *)
Lemma parseInt_toString (z : Z) : parseInt (toString z) = Num z.
Proof.
  unfold toString.
  assert (Hb : 0 <= Z.abs z < 2 ^ Z.of_nat (S (Z.to_nat (Z.log2 (Z.abs z))))).
  { rewrite Nat2Z.inj_succ, Z2Nat.id by apply Z.log2_nonneg.
    destruct (Z.eq_dec (Z.abs z) 0) as [E|E].
    - rewrite E. simpl. lia.
    - pose proof (Z.log2_spec (Z.abs z)). lia. }
  destruct (digits_natToString _ (Z.abs z) "" Hb) as [(d & r & Hd) [k Hk]].
  specialize (Hk None). cbn [digits] in Hk.
  destruct (Z.ltb_spec z 0) as [Hz|Hz].
  - rewrite parseInt_minus, Hk. f_equal. lia.
  - rewrite Hd, parseInt_digit, <- Hd, Hk. f_equal. lia.
Qed.

End NumberText.

(** ** Tracker controller *)

Section ControllerFacts.

Import JS JSDate Controller.
Local Open Scope string_scope.
Local Open Scope Z_scope.

(** What [handleStop] does from a render with a usable start instant. *)
Lemma handleStop_active (c : State) (now start : Z) (w : World) :
  startTime c = Some (Num start) -> start <> 0 -> validTime start = true ->
  handleStop c now w = Returned (
    let session :=
      {| s_startTime := start; s_endTime := Some now;
         s_duration := (now - start) / 1000; s_mode := mode c;
         s_date := isoDate start |} in
    let w' :=
      putTimerStartTime None
        (putStartTime None
           (setStartTime None
              (setIsRunning false (saveSessions (sessions c ++ [session])%list w)))) in
    match mode c with
    | stopwatch => setElapsedTime (Num 0) w'
    | timer => setTimerRemaining (timerDuration c) w'
    end).
Proof.
  intros Hs Hz Hv. unfold handleStop. rewrite Hs.
  apply Z.eqb_neq in Hz. rewrite Hz, Hv. cbn [negb].
  destruct (mode c); reflexivity.
Qed.

Lemma handleStop_cases (c : State) :
  (forall now w, handleStop c now w = Returned w)
  \/ (forall now w, handleStop c now w = Threw)
  \/ exists start, startTime c = Some (Num start) /\ start <> 0
                   /\ validTime start = true.
Proof.
  unfold handleStop.
  destruct (startTime c) as [[|start]|]; auto.
  destruct (Z.eqb_spec start 0); auto.
  destruct (validTime start) eqn:Hv; auto.
  right. right. exists start. auto.
Qed.

(** C7. [stop] without an active [startTime] returns without touching
    anything: the session list, the resumption entries and every state
    variable are what they were, and nothing is thrown.  Hence a second stop
    after a first one changes nothing, and two stops fired from one and the
    same render leave at most one more session than that render had. *)
Theorem stop_without_start_is_noop :
  (forall c now w, active c = false -> handleStop c now w = Returned w)
  /\ (forall now1 now2 w,
        step Stop now2 (step Stop now1 w) = step Stop now1 w)
  /\ (forall c now1 now2 w,
        sessions c = sessions (ui w) ->
        let w1 := settle w (handleStop c now1 w) in
        let w2 := settle w1 (handleStop c now2 w1) in
        (List.length (sessions (ui w2)) <= S (List.length (sessions (ui w))))%nat).
Proof.
  split; [|split].
  - intros c now w H. unfold active in H. unfold handleStop.
    destruct (startTime c) as [[|start]|]; try reflexivity.
    cbn [truthy] in H. apply negb_false_iff in H. rewrite H. reflexivity.
  - intros now1 now2 w. unfold step.
    destruct (handleStop_cases (ui w)) as [E | [E | (start & Hs & Hz & Hv)]].
    + rewrite !E. cbn [settle]. rewrite ?E. reflexivity.
    + rewrite !E. cbn [settle]. rewrite ?E. reflexivity.
    + rewrite (handleStop_active _ _ _ _ Hs Hz Hv).
      destruct (mode (ui w)); reflexivity.
  - intros c now1 now2 w Hc. cbv zeta.
    destruct (handleStop_cases c) as [E | [E | (start & Hs & Hz & Hv)]].
    + rewrite !E. cbn [settle]. lia.
    + rewrite !E. cbn [settle]. lia.
    + rewrite !(handleStop_active _ _ _ _ Hs Hz Hv).
      destruct (mode c); simpl; rewrite length_app, Hc; simpl; lia.
Qed.

Lemma stop_without_start_is_noop_witness :
  handleStop initialState t0 idleWorld = Returned idleWorld
  /\ (List.length
        (sessions (ui (settle (settle runningStopwatch
                                 (handleStop (ui runningStopwatch) (t0 + 5000)
                                    runningStopwatch))
                         (handleStop (ui runningStopwatch) (t0 + 9000)
                            (settle runningStopwatch
                               (handleStop (ui runningStopwatch) (t0 + 5000)
                                  runningStopwatch))))))
      <= 1)%nat.
Proof.
  destruct stop_without_start_is_noop as [H1 [_ H3]].
  split.
  - apply H1. reflexivity.
  - apply (H3 (ui runningStopwatch) (t0 + 5000) (t0 + 9000) runningStopwatch).
    reflexivity.
Defined.



(** C10 as stated fails on long entries, where the product by 60 is
    rounded: the entry 9007199254740991 reads as that very number of
    minutes, and the seconds stored are 540431955284459456, not
    9007199254740991 * 60 = 540431955284459460. *)
Lemma setTimerMinutes_product_rounds :
  parseInt "9007199254740991" = Num 9007199254740991
  /\ Exact.integerOf (ofZ 9007199254740991) = Some 9007199254740991
  /\ Exact.integerOf (Exact.storedSeconds "9007199254740991")
     = Some 540431955284459456
  /\ Exact.integerOf (Exact.storedSeconds "9007199254740991")
     <> Some (9007199254740991 * 60).
Proof.
  repeat split; try (vm_compute; reflexivity). vm_compute. discriminate.
Qed.

(** C10, amended.  [setTimerMinutes] falls back to 25 minutes, 1500
    seconds, exactly when [parseInt] of the entry is NaN or 0; any other
    parsed integer [n], negative ones included, gives [n * 60] seconds as
    long as [n * 60] is a safe integer, where the product is exact.  The
    entry "0" gives 1500 seconds and the entry "-5" gives -300, also when
    the product is computed in binary64. *)
Theorem setTimerMinutes_default :
  forall (c : State) (w : World),
    let parsed := parseInt (tempMinutes c) in
    let w' := setTimerMinutes c w in
    (truthy parsed = false <-> parsed = NaN \/ parsed = Num 0)
    /\ (parsed = NaN \/ parsed = Num 0 ->
        timerDuration (ui w') = Num 1500 /\ timerRemaining (ui w') = Num 1500)
    /\ (forall n, parsed = Num n -> n <> 0 -> Exact.safe (n * 60) ->
        timerDuration (ui w') = Num (n * 60)
        /\ timerRemaining (ui w') = Num (n * 60))
    /\ parseInt "0" = Num 0
    /\ parseInt "-5" = Num (-5)
    /\ Exact.integerOf (Exact.storedSeconds "0") = Some 1500
    /\ Exact.integerOf (Exact.storedSeconds "-5") = Some (-300).
Proof.
  intros c w parsed w'. subst w'. unfold setTimerMinutes. fold parsed.
  assert (Ht : truthy parsed = false <-> parsed = NaN \/ parsed = Num 0).
  { destruct parsed as [|n]; simpl.
    - intuition.
    - rewrite negb_false_iff, Z.eqb_eq. split.
      + intros ->. now right.
      + intros [H|H]; congruence. }
  split; [exact Ht|].
  split; [|split; [|split; [|split; [|split]]]].
  - intro H. apply Ht in H. unfold or_else. rewrite H. split; reflexivity.
  - intros n Hn Hz _. unfold or_else. rewrite Hn. simpl.
    apply Z.eqb_neq in Hz. rewrite Hz. split; reflexivity.
  - reflexivity.
  - reflexivity.
  - vm_compute. reflexivity.
  - vm_compute. reflexivity.
Qed.

Lemma setTimerMinutes_default_witness :
  timerDuration (ui (setTimerMinutes (editingState "0") idleWorld)) = Num 1500
  /\ timerDuration (ui (setTimerMinutes (editingState "-5") idleWorld)) = Num (-300).
Proof.
  split.
  - destruct (setTimerMinutes_default (editingState "0") idleWorld)
      as (_ & H & _).
    apply H. right. reflexivity.
  - destruct (setTimerMinutes_default (editingState "-5") idleWorld)
      as (_ & _ & H & _).
    apply (H (-5)); [reflexivity | lia | unfold Exact.safe, Exact.MAX_SAFE_INTEGER; lia].
Defined.

Lemma loadSessions_keeps (w : World) :
  startTime (ui (loadSessions w)) = startTime (ui w)
  /\ isRunning (ui (loadSessions w)) = isRunning (ui w)
  /\ mode (ui (loadSessions w)) = mode (ui w)
  /\ timerRemaining (ui (loadSessions w)) = timerRemaining (ui w)
  /\ ls (loadSessions w) = ls w.
Proof.
  unfold loadSessions. destruct (ls_allSessions (ls w)); repeat split; reflexivity.
Qed.

(** Initialization with a readable [startTime] entry comes up running from
    that instant, in the persisted mode. *)
Lemma mount_running (now start : Z) (a : string) (w : World) :
  ls_startTime (ls w) = Some a -> parseInt a = Num start ->
  startTime (ui (mount now w)) = Some (Num start)
  /\ isRunning (ui (mount now w)) = true
  /\ mode (ui (mount now w))
     = match ls_trackerMode (ls w) with Some m => m | None => mode (ui w) end.
Proof.
  intros Ha Hp.
  assert (Ta : truthyS (Some a) = true)
    by (destruct a; [vm_compute in Hp; discriminate | reflexivity]).
  assert (Xa : textOr (Some a) "" = a) by (destruct a; [discriminate | reflexivity]).
  unfold mount. cbv zeta.
  match goal with
  | |- context [loadSessions ?x] =>
      destruct (loadSessions_keeps x) as (E1 & E2 & E3 & _)
  end.
  rewrite E1, E2, E3. clear E1 E2 E3.
  rewrite Ha, Ta, Xa, Hp.
  destruct (ls_trackerMode (ls w)) as [[|]|];
    destruct (truthyS (ls_timerDuration (ls w)));
    destruct (truthyS (ls_timerStartTime (ls w)));
    repeat split; reflexivity.
Qed.

(** A reload finds the start instant that [handleStart] persisted and
    comes up running in the mode that was started. *)
Lemma mount_recovers_start (c : State) (start now : Z) (w : World) :
  let reloaded := {| ui := initialState; ls := ls (handleStart c start w) |} in
  startTime (ui (mount now reloaded)) = Some (Num start)
  /\ isRunning (ui (mount now reloaded)) = true
  /\ mode (ui (mount now reloaded)) = mode c.
Proof.
  cbv zeta.
  destruct (mount_running now start (toString start)
              {| ui := initialState; ls := ls (handleStart c start w) |})
    as (H1 & H2 & H3).
  - unfold handleStart. destruct (mode c); reflexivity.
  - apply parseInt_toString.
  - rewrite H1, H2, H3. repeat split.
    unfold handleStart. destruct (mode c); reflexivity.
Qed.

Lemma tick_timer_decrement (c : State) (now p : Z) (w : World) :
  isRunning c = true -> mode c = timer ->
  timerRemaining (ui w) = Num p -> 1 < p ->
  tick c now w = Returned (setTimerRemaining (Num (p - 1)) w).
Proof.
  intros Hr Hm Hp Hlt. unfold tick. rewrite Hr, Hm, Hp. simpl.
  destruct (Z.leb_spec (p - 1) 0); [lia | reflexivity].
Qed.

Lemma tick_timer_expiry (c : State) (now p : Z) (w : World) :
  isRunning c = true -> mode c = timer ->
  timerRemaining (ui w) = Num p -> p <= 1 ->
  tick c now w = andThen (handleStop c now w) (setTimerRemaining (Num 0)).
Proof.
  intros Hr Hm Hp Hle. unfold tick. rewrite Hr, Hm, Hp. simpl.
  destruct (Z.leb_spec (p - 1) 0); [reflexivity | lia].
Qed.

(** C1, at the failing input.  A 25-minute timer is started at [t0] and the
    first tick is delivered five seconds later, four ticks having been
    missed: the code stores the previous display minus one, 1499, where
    deriving the value from the start instant gives 1495.  The value the
    tick stores does not depend on the clock at all.  The other half holds:
    the tick that takes the display to 0 records the session a stop would
    record and leaves the controller idle. *)
Theorem timer_tick_subtracts_one :
  timerRemaining (ui (step Tick (t0 + 5000) runningTimer)) = Num 1499
  /\ specRemaining t0 1500 (t0 + 5000) = 1495
  /\ (forall now, timerRemaining (ui (step Tick now runningTimer)) = Num 1499)
  /\ (forall now,
        sessions (ui (step Tick now lastSecond))
        = sessions (ui (step Stop now lastSecond)))
  /\ isRunning (ui (step Tick (t0 + 1500000) lastSecond)) = false
  /\ map s_duration (sessions (ui (step Tick (t0 + 1500000) lastSecond))) = [1500].
Proof.
  split; [reflexivity | split; [reflexivity |]].
  split.
  { intro now. unfold step.
    rewrite (tick_timer_decrement _ now 1500); reflexivity || lia. }
  split.
  { intro now. unfold step.
    rewrite (tick_timer_expiry _ now 1) by (reflexivity || lia).
    rewrite (handleStop_active _ now t0)
      by (reflexivity || (vm_compute; congruence)).
    reflexivity. }
  split; vm_compute; reflexivity.
Qed.







End ControllerFacts.

(** ** Sorting with a comparator *)

Section SortFacts.

Import Aggregation.

Context {A : Type} (cmp : A -> A -> comparison).

Lemma insertSorted_perm (x : A) (l : list A) :
  Permutation (insertSorted cmp x l) (x :: l).
Proof.
  induction l as [|y r IH]; simpl; [reflexivity|].
  destruct (cmp x y); try reflexivity.
  rewrite IH. apply perm_swap.
Qed.

Lemma sort_perm (l : list A) : Permutation (sort cmp l) l.
Proof.
  induction l as [|x l IH]; simpl; [reflexivity|].
  rewrite insertSorted_perm. now constructor.
Qed.

Lemma sort_nil : sort cmp [] = [].
Proof. reflexivity. Qed.

(** Sorting on a key commutes with a map that the key undoes. *)
Lemma insertSorted_map {B : Type} (f : B -> A) (g : A -> B)
      (cmpB : B -> B -> comparison) (x : B) (l : list B) :
  (forall b, g (f b) = b) ->
  (forall a a', cmp a a' = cmpB (g a) (g a')) ->
  insertSorted cmp (f x) (map f l) = map f (insertSorted cmpB x l).
Proof.
  intros Hg Hc. induction l as [|y r IH]; simpl; [reflexivity|].
  rewrite Hc, !Hg. destruct (cmpB x y); simpl; try reflexivity.
  now rewrite IH.
Qed.

Lemma sort_map {B : Type} (f : B -> A) (g : A -> B)
      (cmpB : B -> B -> comparison) (l : list B) :
  (forall b, g (f b) = b) ->
  (forall a a', cmp a a' = cmpB (g a) (g a')) ->
  sort cmp (map f l) = map f (sort cmpB l).
Proof.
  intros Hg Hc. induction l as [|x l IH]; simpl; [reflexivity|].
  rewrite IH. now apply insertSorted_map with (g := g).
Qed.

End SortFacts.

(** ** The order of date strings *)

Section DateOrder.

Import Aggregation.

Lemma localeCompare_refl (a : string) : localeCompare a a = Eq.
Proof.
  unfold localeCompare. induction a as [|c a IH]; simpl; [reflexivity|].
  unfold Ascii.compare. now rewrite N.compare_refl.
Qed.

Lemma localeCompare_eq (a b : string) : localeCompare a b = Eq -> a = b.
Proof. apply String.compare_eq_iff. Qed.

Lemma localeCompare_gt (a b : string) :
  localeCompare a b = Gt -> localeCompare b a = Lt.
Proof.
  unfold localeCompare. intro H.
  rewrite String.compare_antisym, H. reflexivity.
Qed.

Lemma dateLt_trans (a b c : string) : dateLt a b -> dateLt b c -> dateLt a c.
Proof.
  unfold dateLt, localeCompare. revert b c.
  induction a as [|x a IH]; intros [|y b] [|z c]; simpl; try congruence.
  unfold Ascii.compare.
  destruct (N.compare_spec (N_of_ascii x) (N_of_ascii y)) as [Exy|Lxy|Gxy];
    try congruence;
    destruct (N.compare_spec (N_of_ascii y) (N_of_ascii z)) as [Eyz|Lyz|Gyz];
    try congruence; intros H1 H2.
  - rewrite Exy, Eyz, N.compare_refl. eauto.
  - rewrite Exy. now apply N.compare_lt_iff in Lyz as ->.
  - rewrite <- Eyz. now apply N.compare_lt_iff in Lxy as ->.
  - assert (L : (N_of_ascii x < N_of_ascii z)%N) by lia.
    now apply N.compare_lt_iff in L as ->.
Qed.

Lemma dateLt_irrefl (a : string) : ~ dateLt a a.
Proof. unfold dateLt. rewrite localeCompare_refl. discriminate. Qed.

(** Inserting a fresh date into strictly ascending dates keeps them
    strictly ascending. *)
Lemma insertSorted_ascending (k : string) (l : list string) :
  StronglySorted dateLt l -> ~ In k l ->
  StronglySorted dateLt (insertSorted localeCompare k l).
Proof.
  induction l as [|y r IH]; simpl; intros Hs Hn.
  - repeat constructor.
  - inversion Hs as [|? ? Hr Hy]; subst.
    destruct (localeCompare k y) eqn:E.
    + apply localeCompare_eq in E. subst. tauto.
    + constructor; [exact Hs|]. constructor; [exact E|].
      eapply Forall_impl; [|exact Hy]. intros z Hz.
      now apply dateLt_trans with y.
    + constructor.
      * apply IH; tauto.
      * apply localeCompare_gt in E.
        rewrite Forall_forall in *. intros z Hz.
        apply (Permutation_in _ (insertSorted_perm localeCompare k r)) in Hz.
        destruct Hz as [<-|Hz]; auto.
Qed.

Lemma sort_ascending (l : list string) :
  NoDup l -> StronglySorted dateLt (sort localeCompare l).
Proof.
  induction 1 as [|k l Hn Hd IH]; simpl; [constructor|].
  apply insertSorted_ascending; [exact IH|].
  intro H. apply Hn. now apply (Permutation_in _ (sort_perm localeCompare l)).
Qed.

(** Strictly ascending lists with the same members are the same list. *)
Lemma ascending_unique (l1 : list string) :
  forall l2, StronglySorted dateLt l1 -> StronglySorted dateLt l2 ->
             (forall x, In x l1 <-> In x l2) -> l1 = l2.
Proof.
  induction l1 as [|a l1 IH]; intros [|b l2] H1 H2 Hin.
  - reflexivity.
  - destruct (proj2 (Hin b)); simpl; auto.
  - destruct (proj1 (Hin a)); simpl; auto.
  - inversion H1 as [|? ? S1 F1]; inversion H2 as [|? ? S2 F2]; subst.
    rewrite Forall_forall in F1, F2.
    assert (a = b) as ->.
    { destruct (proj1 (Hin a)) as [E|Ia]; [now left|now symmetry|].
      destruct (proj2 (Hin b)) as [E|Ib]; [now left|exact E|].
      exfalso. apply (dateLt_irrefl a).
      apply dateLt_trans with b; auto. }
    f_equal. apply IH; auto.
    intro x. split; intro Hx.
    + destruct (proj1 (Hin x)) as [E|I]; [now right| |exact I].
      subst. exfalso. apply (dateLt_irrefl x). auto.
    + destruct (proj2 (Hin x)) as [E|I]; [now right| |exact I].
      subst. exfalso. apply (dateLt_irrefl x). auto.
Qed.

End DateOrder.

(** ** Grouping by day *)

Section GroupFacts.

Import JS Aggregation.

Lemma has_map (f : string -> DayData) (date : string) (ks : list string) :
  has date (map (fun d => (d, f d)) ks)
  = existsb (fun k => String.eqb k date) ks.
Proof.
  induction ks as [|k ks IH]; simpl; [reflexivity|]. now rewrite IH.
Qed.

Lemma onDate_snoc (d : string) (p : list Session) (x : Session) :
  onDate d (p ++ [x])
  = onDate d p ++ (if String.eqb (s_date x) d then [x] else []).
Proof. unfold onDate. rewrite filter_app. reflexivity. Qed.

Lemma totalOf_snoc (l : list Session) (x : Session) :
  totalOf (l ++ [x]) = fadd (totalOf l) (minutesOf x).
Proof. unfold totalOf. now rewrite fold_left_app. Qed.

Lemma bucketOf_other (p : list Session) (x : Session) (d : string) :
  s_date x <> d -> bucketOf (p ++ [x]) d = bucketOf p d.
Proof.
  intro H. unfold bucketOf. rewrite onDate_snoc.
  apply String.eqb_neq in H. rewrite H, app_nil_r. reflexivity.
Qed.

Lemma bucketOf_same (p : list Session) (x : Session) :
  bucketOf (p ++ [x]) (s_date x)
  = {| d_date := s_date x;
       d_totalMinutes :=
         fadd (d_totalMinutes (bucketOf p (s_date x))) (minutesOf x);
       d_sessions := d_sessions (bucketOf p (s_date x)) ++ [x] |}.
Proof.
  unfold bucketOf. rewrite onDate_snoc, String.eqb_refl, totalOf_snoc.
  reflexivity.
Qed.

Lemma addTo_map (p : list Session) (x : Session) (ks : list string) :
  NoDup ks -> In (s_date x) ks ->
  addTo (s_date x) x (map (fun d => (d, bucketOf p d)) ks)
  = map (fun d => (d, bucketOf (p ++ [x]) d)) ks.
Proof.
  induction 1 as [|k ks Hn Hd IH]; intro Hin; [destruct Hin|].
  cbn [map addTo].
  destruct (String.eqb_spec k (s_date x)) as [->|Hne].
  - rewrite bucketOf_same. cbn [d_date]. f_equal.
    apply map_ext_in. intros d Hd'. f_equal. symmetry.
    apply bucketOf_other. intro E. rewrite <- E in Hd'. contradiction.
  - rewrite bucketOf_other by congruence. f_equal.
    apply IH. destruct Hin; [congruence | assumption].
Qed.

Lemma dates_snoc (p : list Session) (x : Session) :
  dates (p ++ [x]) = noteDate (dates p) x.
Proof. unfold dates. now rewrite fold_left_app. Qed.

Lemma noteDate_In (ks : list string) (x : Session) (d : string) :
  In d (noteDate ks x) <-> In d ks \/ d = s_date x.
Proof.
  unfold noteDate.
  destruct (existsb _ ks) eqn:E.
  - apply existsb_exists in E as (k & Hk & Ek).
    apply String.eqb_eq in Ek. subst k.
    split; [auto | intros [H | ->]; auto].
  - rewrite in_app_iff. simpl. intuition.
Qed.

(** The dates are those that occur in the list, each once. *)
Lemma In_dates (l : list Session) (d : string) :
  In d (dates l) <-> exists s, In s l /\ s_date s = d.
Proof.
  induction l as [|x p IH] using rev_ind.
  - simpl. split; [tauto | intros (s & [] & _)].
  - rewrite dates_snoc, noteDate_In, IH. split.
    + intros [(s & Hs & E) | ->].
      * exists s. rewrite in_app_iff. auto.
      * exists x. rewrite in_app_iff. simpl. auto.
    + intros (s & Hs & E). apply in_app_or in Hs as [Hs | [<- | []]].
      * left. eauto.
      * right. now symmetry.
Qed.

Lemma NoDup_dates (l : list Session) : NoDup (dates l).
Proof.
  induction l as [|x p IH] using rev_ind; [constructor|].
  rewrite dates_snoc. unfold noteDate.
  destruct (existsb _ (dates p)) eqn:E; [exact IH|].
  apply NoDup_app; [exact IH | repeat constructor; simpl; tauto |].
  intros d Hd [<- | []].
  assert (existsb (fun k => String.eqb k (s_date x)) (dates p) = true);
    [|congruence].
  apply existsb_exists. exists (s_date x). split; [exact Hd|].
  apply String.eqb_refl.
Qed.

Lemma onDate_absent (l : list Session) (d : string) :
  ~ In d (dates l) -> onDate d l = [].
Proof.
  intro H. unfold onDate.
  induction l as [|s l IH]; simpl; [reflexivity|].
  destruct (String.eqb_spec (s_date s) d) as [E|E].
  - exfalso. apply H. apply In_dates. exists s. simpl. auto.
  - apply IH. intro Hd. apply H. apply In_dates.
    apply In_dates in Hd as (s' & Hs' & E'). exists s'. simpl. auto.
Qed.

(** The map the [forEach] builds: one entry per date, in order of first
    appearance, holding that date's sessions and their running sum. *)
Lemma dayMap_spec (l : list Session) :
  fold_left addSession l [] = map (fun d => (d, bucketOf l d)) (dates l).
Proof.
  induction l as [|x p IH] using rev_ind; [reflexivity|].
  rewrite fold_left_app. cbn [fold_left]. rewrite IH.
  unfold addSession. cbv zeta. rewrite has_map, dates_snoc.
  match goal with
  | |- addTo _ _ ?m = _ =>
      assert (E : m = map (fun d => (d, bucketOf p d)) (noteDate (dates p) x))
  end.
  { unfold noteDate.
    destruct (existsb _ (dates p)) eqn:Hex; [reflexivity|].
    unfold setNew. rewrite map_app. cbn [map]. do 3 f_equal.
    unfold bucketOf. rewrite onDate_absent; [reflexivity|].
    intro Hd.
    assert (existsb (fun k => String.eqb k (s_date x)) (dates p) = true);
      [|congruence].
    apply existsb_exists. exists (s_date x). split; [exact Hd|].
    apply String.eqb_refl. }
  rewrite E. apply addTo_map.
  - rewrite <- dates_snoc. apply NoDup_dates.
  - apply noteDate_In. now right.
Qed.

(** [groupByDay] returns, for the dates of the list in ascending order, the
    bucket of each. *)
Lemma groupByDay_spec (l : list Session) :
  groupByDay l = map (bucketOf l) (sort localeCompare (dates l)).
Proof.
  unfold groupByDay. rewrite dayMap_spec, map_map. cbn [snd].
  apply sort_map with (g := d_date); reflexivity.
Qed.

Lemma groupByDay_dates (l : list Session) :
  map d_date (groupByDay l) = sort localeCompare (dates l).
Proof.
  rewrite groupByDay_spec, map_map. cbn [bucketOf d_date]. apply map_id.
Qed.

Lemma groupByDay_In (l : list Session) (b : DayData) :
  In b (groupByDay l) <-> In (d_date b) (dates l) /\ b = bucketOf l (d_date b).
Proof.
  rewrite groupByDay_spec, in_map_iff. split.
  - intros (d & <- & Hd). cbn [bucketOf d_date]. split; [|reflexivity].
    now apply (Permutation_in _ (sort_perm localeCompare (dates l))).
  - intros (Hd & E). exists (d_date b). split; [now symmetry|].
    now apply (Permutation_in _ (Permutation_sym (sort_perm localeCompare (dates l)))).
Qed.

(** The dates of a permuted list, sorted, are the same list. *)
Lemma sorted_dates_perm (l l' : list Session) :
  Permutation l l' ->
  sort localeCompare (dates l) = sort localeCompare (dates l').
Proof.
  intro P.
  apply ascending_unique; try (apply sort_ascending, NoDup_dates).
  intro d.
  assert (Hd : In d (dates l) <-> In d (dates l')).
  { rewrite !In_dates. split; intros (s & Hs & E); exists s; split; auto.
    - now apply (Permutation_in _ P).
    - now apply (Permutation_in _ (Permutation_sym P)). }
  split; intro H.
  - apply (Permutation_in _ (Permutation_sym (sort_perm localeCompare (dates l')))).
    apply Hd. now apply (Permutation_in _ (sort_perm localeCompare (dates l))).
  - apply (Permutation_in _ (Permutation_sym (sort_perm localeCompare (dates l)))).
    apply Hd. now apply (Permutation_in _ (sort_perm localeCompare (dates l'))).
Qed.

Lemma filter_perm {A : Type} (f : A -> bool) (l l' : list A) :
  Permutation l l' -> Permutation (filter f l) (filter f l').
Proof.
  induction 1; simpl.
  - constructor.
  - destruct (f x); auto.
  - destruct (f x), (f y); auto. apply perm_swap.
  - etransitivity; eauto.
Qed.

Lemma onDate_perm (d : string) (l l' : list Session) :
  Permutation l l' -> Permutation (onDate d l) (onDate d l').
Proof. apply filter_perm. Qed.

End GroupFacts.

(** ** The aggregation engine *)

Section AggregationFacts.

Import JS JSDate Controller Aggregation.

(** C9 as stated fails on the totals: the minutes are added in binary64 in
    input order, and the sessions of 6, 12 and 18 seconds sum to
    0.6000000000000001 minutes in that order and to 0.6 in the reverse
    order. *)
Lemma groupByDay_totals_follow_order :
  Permutation shortSessions (rev shortSessions)
  /\ map d_totalMinutes (groupByDay shortSessions)
     = [S754_finite false 5404319552844596 (-53)]
  /\ map d_totalMinutes (groupByDay (rev shortSessions))
     = [S754_finite false 5404319552844595 (-53)]
  /\ map d_totalMinutes (groupByDay shortSessions)
     <> map d_totalMinutes (groupByDay (rev shortSessions)).
Proof.
  split; [apply Permutation_rev|].
  split; [vm_compute; reflexivity|].
  split; [vm_compute; reflexivity|].
  vm_compute. discriminate.
Qed.

(** C9, amended.  [groupByDay] is a function of the list alone.  For a list
    and any permutation of it the bucket dates are the same, in strictly
    ascending date-string order, and they are the dates that occur; a bucket
    holds the sessions of its date in input order, the same sessions up to
    order for a permuted list, and its total is their minutes added from left
    to right.  The scenario list gives 60 minutes for each of its two
    dates. *)
Theorem groupByDay_order_independent :
  forall l l' : list Session,
    Permutation l l' ->
    map d_date (groupByDay l) = map d_date (groupByDay l')
    /\ StronglySorted dateLt (map d_date (groupByDay l))
    /\ (forall d, In d (map d_date (groupByDay l))
                  <-> exists s, In s l /\ s_date s = d)
    /\ (forall b, In b (groupByDay l) ->
                  d_sessions b = onDate (d_date b) l
                  /\ d_totalMinutes b = totalOf (d_sessions b))
    /\ (forall b b', In b (groupByDay l) -> In b' (groupByDay l') ->
                     d_date b = d_date b' ->
                     Permutation (d_sessions b) (d_sessions b'))
    /\ (forall tz c c' now,
          sessions c = l -> sessions c' = l' -> timeRange c = timeRange c' ->
          map d_date (getDayData tz c now) = map d_date (getDayData tz c' now))
    /\ map (fun b => (d_date b, d_totalMinutes b)) (groupByDay scenario)
       = [("2024-01-01"%string, ofZ 60); ("2024-01-02"%string, ofZ 60)].
Proof.
  intros l l' P.
  split; [rewrite !groupByDay_dates; now apply sorted_dates_perm|].
  split; [rewrite groupByDay_dates; apply sort_ascending, NoDup_dates|].
  split.
  { intro d. rewrite groupByDay_dates, <- In_dates. split; intro H.
    - now apply (Permutation_in _ (sort_perm localeCompare (dates l))).
    - now apply (Permutation_in _ (Permutation_sym (sort_perm localeCompare (dates l)))). }
  split.
  { intros b Hb. apply groupByDay_In in Hb as [_ ->]. split; reflexivity. }
  split.
  { intros b b' Hb Hb' E.
    apply groupByDay_In in Hb as [_ ->]. apply groupByDay_In in Hb' as [_ ->].
    cbn [bucketOf d_sessions d_date] in *. rewrite E. now apply onDate_perm. }
  split.
  { intros tz c c' now Hc Hc' Hr. unfold getDayData, getFilteredSessions.
    rewrite !groupByDay_dates, Hc, Hc', Hr.
    now apply sorted_dates_perm, filter_perm. }
  vm_compute. reflexivity.
Qed.

Lemma groupByDay_order_independent_witness :
  map d_date (groupByDay scenario) = map d_date (groupByDay (rev scenario)).
Proof.
  apply (groupByDay_order_independent scenario (rev scenario)).
  apply Permutation_rev.
Defined.










End AggregationFacts.

(** ** The sessions route *)

Section RouteFacts.

(** What the revision with the "Replace all" logic guarantees: whatever was
    stored, the collection afterwards is the posted list, the reply counts
    it, and posting the empty list leaves nothing to list. *)
Lemma RouteReplace_POST_replaces (sessions : list Session) (coll : Mongo.Collection) :
  RouteReplace.POST sessions coll
  = (sessions, Success (Some (Z.of_nat (List.length sessions))))
  /\ RouteReplace.GET (fst (RouteReplace.POST [] coll)) = [].
Proof.
  split; [|reflexivity].
  unfold RouteReplace.POST, Mongo.deleteAll, Mongo.insertMany.
  destruct sessions; reflexivity.
Qed.

(** C4, at the failing inputs.  [POST] of [route.ts] inserts without
    deleting: posting one session over a collection that holds another
    leaves both, and posting the empty list fails in the driver and leaves
    the collection as it was, so a following [GET] is not empty.  The
    revision with the "Replace all" logic stores exactly the posted list in
    both cases. *)
Theorem route_POST_appends :
  Route.GET (fst (Route.POST [docB] [docA])) = [docA; docB]
  /\ Route.POST [] [docA] = ([docA], Failed)
  /\ Route.GET (fst (Route.POST [] [docA])) <> []
  /\ (forall s sessions coll,
        Route.GET (fst (Route.POST (s :: sessions) coll)) = coll ++ s :: sessions)
  /\ fst (RouteReplace.POST [docB] [docA]) = [docB]
  /\ RouteReplace.GET (fst (RouteReplace.POST [] [docA])) = [].
Proof.
  repeat split; try reflexivity. discriminate.
Qed.

End RouteFacts.

(** * Further properties *)

(** ** Runs of the page *)

Section RunFacts.

Import JS JSDate Controller Editor Runs.
Local Open Scope string_scope.
Local Open Scope Z_scope.

Lemma parseInt_numberToString (n : number) : parseInt (numberToString n) = n.
Proof. destruct n as [|z]; [reflexivity | apply parseInt_toString]. Qed.

Lemma toString_text (z : Z) (d : string) :
  truthyS (Some (toString z)) = true /\ textOr (Some (toString z)) d = toString z.
Proof.
  pose proof (parseInt_toString z) as H.
  destruct (toString z); [discriminate H | split; reflexivity].
Qed.

Lemma numberToString_text (n : number) (d : string) :
  truthyS (Some (numberToString n)) = true
  /\ textOr (Some (numberToString n)) d = numberToString n.
Proof. destruct n as [|z]; [split; reflexivity | apply toString_text]. Qed.

Lemma sane_active (t : Z) : sane t -> t <> 0 /\ validTime t = true.
Proof.
  unfold sane, validTime. intro H. split; [lia|].
  apply Z.leb_le. lia.
Qed.

Lemma loadSessions_display (w : World) :
  timerDuration (ui (loadSessions w)) = timerDuration (ui w)
  /\ elapsedTime (ui (loadSessions w)) = elapsedTime (ui w)
  /\ timerRemaining (ui (loadSessions w)) = timerRemaining (ui w).
Proof.
  unfold loadSessions. destruct (ls_allSessions (ls w)); repeat split; reflexivity.
Qed.

(** What an offered action does to the invariants and to the session
    list. *)
Lemma act_keeps (a : Action) (now : Z) (w : World) :
  sane now -> coherent w -> archived w ->
  coherent (act a now w) /\ archived (act a now w)
  /\ exists rest, sessions (ui (act a now w)) = (sessions (ui w) ++ rest)%list
                  /\ (List.length rest <= 1)%nat
                  /\ Forall closed rest.
Proof.
  intros Hnow Hc Ha.
  assert (Same : coherent w /\ archived w
                 /\ exists rest, sessions (ui w) = (sessions (ui w) ++ rest)%list
                                 /\ (List.length rest <= 1)%nat
                                 /\ Forall closed rest).
  { repeat split; auto. exists []. rewrite app_nil_r. repeat split; auto. }
  unfold act. destruct (offered a (ui w)) eqn:Ho; [|exact Same].
  destruct w as [u l]. destruct u as [md run el td tr st ss rg ed tm].
  destruct l as [lm lst lts ltd la].
  unfold coherent, archived in *. cbn [ui ls isRunning startTime mode sessions
    timerDuration ls_startTime ls_trackerMode ls_timerStartTime ls_timerDuration
    ls_allSessions] in *.
  destruct a as [e| |v|].
  - destruct e as [| | |m| |].
    + (* Start *)
      cbn in Ho. apply negb_true_iff in Ho. subst run.
      unfold step, handleStart. cbn [ui mode timerDuration].
      destruct md; cbn; (split; [exists now; repeat split; auto; try (apply Hnow); discriminate|]);
        (split; [exact Ha|]); exists []; rewrite app_nil_r; repeat split; auto.
    + (* Stop *)
      cbn in Ho. subst run.
      destruct Hc as (t & Hst & Ht & Hl & Hm & Htm).
      destruct (sane_active t Ht) as [Hz Hv].
      unfold step. rewrite (handleStop_active _ now t) by assumption.
      cbn [settle]. destruct md; cbn; (split; [auto|]); (split; [reflexivity|]);
        eexists; (split; [reflexivity|]); (split; [cbn; lia|]);
        repeat constructor; exists now; cbn; repeat split; auto.
    + (* Reset *)
      unfold step, handleReset. cbn.
      split; [auto|]. split; [exact Ha|].
      exists []. rewrite app_nil_r. repeat split; auto.
    + (* Switch *)
      unfold step, switchMode. cbn [ui isRunning].
      destruct run.
      * destruct Hc as (t & Hst & Ht & Hl & Hm & Htm).
        destruct (sane_active t Ht) as [Hz Hv].
        rewrite (handleStop_active _ now t) by assumption.
        cbn [andThen settle].
        destruct md; cbn; (split; [auto|]); (split; [reflexivity|]);
          eexists; (split; [reflexivity|]); (split; [cbn; lia|]);
          repeat constructor; exists now; cbn; repeat split; auto.
      * cbn. split; [exact Hc|]. split; [exact Ha|].
        exists []. rewrite app_nil_r. repeat split; auto.
    + (* SetMinutes *)
      destruct md; [discriminate Ho|]. cbn in Ho.
      apply andb_prop in Ho as [Ho _]. apply negb_true_iff in Ho. subst run.
      unfold step, setTimerMinutes. cbn.
      split; [exact Hc|]. split; [exact Ha|].
      exists []. rewrite app_nil_r. repeat split; auto.
    + (* Tick *)
      cbn in Ho. subst run.
      destruct Hc as (t & Hst & Ht & Hl & Hm & Htm).
      destruct (sane_active t Ht) as [Hz Hv].
      unfold step, tick. cbn [ui isRunning negb mode startTime timerRemaining].
      destruct md.
      * rewrite Hst. cbn [truthy]. apply Z.eqb_neq in Hz. rewrite Hz. cbn.
        split; [exists t; tauto|]. split; [exact Ha|].
        exists []. rewrite app_nil_r. repeat split; auto.
      * destruct (JS.leb (sub tr (Num 1)) (Num 0)).
        -- rewrite (handleStop_active _ now t) by assumption.
           cbn. split; [auto|]. split; [reflexivity|].
           eexists. split; [reflexivity|]. split; [cbn; lia|].
           repeat constructor. exists now. cbn. repeat split; auto.
        -- cbn. split; [exists t; tauto|]. split; [exact Ha|].
           exists []. rewrite app_nil_r. repeat split; auto.
  - (* OpenEditor *)
    unfold openTimerEditor. cbn.
    split; [exact Hc|]. split; [exact Ha|].
    exists []. rewrite app_nil_r. repeat split; auto.
  - (* TypeMinutes *)
    cbn. split; [exact Hc|]. split; [exact Ha|].
    exists []. rewrite app_nil_r. repeat split; auto.
  - (* Reload *)
    assert (Hload : forall w', ls w' =
                      {| ls_trackerMode := lm; ls_startTime := lst;
                         ls_timerStartTime := lts; ls_timerDuration := ltd;
                         ls_allSessions := la |} ->
                    sessions (ui w') = [] ->
                    sessions (ui (loadSessions w')) = ss).
    { intros w' Hl' Hs'. unfold loadSessions. rewrite Hl'.
      cbn [ls_allSessions]. destruct la; cbn; congruence. }
    assert (Hrest : forall w', sessions (ui w') = ss ->
                    exists rest, sessions (ui w') = (ss ++ rest)%list
                                 /\ (List.length rest <= 1)%nat
                                 /\ Forall closed rest).
    { intros w' ->. exists []. rewrite app_nil_r. repeat split; auto. }
    unfold reload, mount. cbn [ls ls_trackerMode ls_startTime ls_timerDuration
      ls_timerStartTime].
    match goal with
    | |- context [loadSessions ?x] =>
        destruct (loadSessions_keeps x) as (E1 & E2 & E3 & _ & E5);
        destruct (loadSessions_display x) as (E7 & _);
        pose proof (Hload x) as E6
    end.
    rewrite E1, E2, E3, E5, E7. clear E1 E2 E3 E5 E7.
    destruct run.
    + destruct Hc as (t & Hst & Ht & Hl & Hm & Htm). subst lst lm.
      destruct (toString_text t "") as [T X].
      rewrite T, X, parseInt_toString in *.
      destruct md.
      * destruct (truthyS ltd); cbn in *;
          (split; [exists t; repeat split; auto; try apply Ht; try congruence|]);
          (split; [rewrite E6 by reflexivity; exact Ha|]);
          apply Hrest, E6; reflexivity.
      * destruct (Htm eq_refl) as [-> ->].
        destruct (numberToString_text td "") as [T' X'].
        destruct (numberToString_text td "0") as [_ X0].
        rewrite T', X', X0, parseInt_numberToString, T, X, parseInt_toString in *.
        cbn in *.
        (split; [exists t; repeat split; auto; try apply Ht|]);
          (split; [rewrite E6 by reflexivity; exact Ha|]);
          apply Hrest, E6; reflexivity.
    + destruct Hc as (Hst & Hl & Hlt). subst lst.
      cbn [truthyS] in *.
      destruct lm as [m|]; destruct (truthyS ltd); cbn in *;
        (split; [auto|]);
        (split; [rewrite E6 by reflexivity; exact Ha|]);
        apply Hrest, E6; reflexivity.
Qed.

Lemma run_keeps (actions : list (Action * Z)) :
  forall w,
    Forall (fun p => sane (snd p)) actions -> coherent w -> archived w ->
    coherent (run actions w) /\ archived (run actions w)
    /\ exists rest,
         sessions (ui (run actions w)) = (sessions (ui w) ++ rest)%list
         /\ (List.length rest <= List.length actions)%nat
         /\ Forall closed rest.
Proof.
  induction actions as [|[a now] actions IH]; intros w Hs Hc Ha.
  - cbn. repeat split; auto. exists []. rewrite app_nil_r. repeat split; auto.
  - inversion Hs as [|? ? Hnow Hs']; subst. cbn [snd] in Hnow.
    destruct (act_keeps a now w Hnow Hc Ha) as (Hc1 & Ha1 & r1 & E1 & L1 & F1).
    destruct (IH _ Hs' Hc1 Ha1) as (Hc2 & Ha2 & r2 & E2 & L2 & F2).
    cbn [run]. repeat split; auto.
    exists (r1 ++ r2)%list. rewrite E2, E1, <- app_assoc. repeat split.
    + rewrite length_app. cbn [List.length]. lia.
    + apply Forall_app. auto.
Qed.

Lemma idleWorld_invariants : coherent idleWorld /\ archived idleWorld.
Proof. split; cbn; auto. Qed.

(** The three places a timer length is kept. *)
Lemma bounded_frame (w w' : World) :
  timerDuration (ui w') = timerDuration (ui w) ->
  tempMinutes (ui w') = tempMinutes (ui w) ->
  ls_timerDuration (ls w') = ls_timerDuration (ls w) ->
  bounded w -> bounded w'.
Proof. unfold bounded. intros -> -> ->. auto. Qed.

Lemma handleStop_frame (c : State) (now : Z) (w : World) :
  let w' := settle w (handleStop c now w) in
  timerDuration (ui w') = timerDuration (ui w)
  /\ tempMinutes (ui w') = tempMinutes (ui w)
  /\ ls_timerDuration (ls w') = ls_timerDuration (ls w).
Proof.
  cbv zeta. unfold handleStop.
  destruct (startTime c) as [[|start]|]; try (repeat split; reflexivity).
  destruct (start =? 0); [repeat split; reflexivity|].
  destruct (validTime start); cbn [negb]; [|repeat split; reflexivity].
  destruct (mode c); repeat split; reflexivity.
Qed.

Lemma small_default : small (Num 1500).
Proof. unfold small, maxMinutes. lia. Qed.

Lemma modestEntry_default : modestEntry "25".
Proof.
  unfold modestEntry. replace (parseInt "25") with (Num 25) by reflexivity.
  unfold maxMinutes. lia.
Qed.

(** Modest entries keep the timer, the minutes field and the stored
    duration within [maxMinutes]. *)
Lemma act_bounded (a : Action) (now : Z) (w : World) :
  modest a -> bounded w -> bounded (act a now w).
Proof.
  intros Hm Hb. unfold act. destruct (offered a (ui w)) eqn:Ho; [|exact Hb].
  destruct a as [e| |v|].
  - destruct e as [| | |m| |].
    + (* Start *)
      destruct Hb as (Hd & Ht & Hl). unfold step, handleStart.
      destruct (mode (ui w)).
      * split; [exact Hd|]. split; [exact Ht|exact Hl].
      * split; [exact Hd|]. split; [exact Ht|].
        cbn. destruct (timerDuration (ui w)) as [|d]; [destruct Hd|].
        exists d. split; [reflexivity | exact Hd].
    + (* Stop *)
      unfold step. destruct (handleStop_frame (ui w) now w) as (E1 & E2 & E3).
      exact (bounded_frame w _ E1 E2 E3 Hb).
    + (* Reset *)
      apply (bounded_frame w); auto.
    + (* Switch *)
      unfold step, switchMode.
      destruct (isRunning (ui w)).
      * destruct (handleStop_frame (ui w) now w) as (E1 & E2 & E3).
        destruct (handleStop (ui w) now w) as [w'|]; cbn [andThen settle] in *;
          [|exact Hb].
        apply (bounded_frame w); auto.
      * cbn [andThen settle]. apply (bounded_frame w); auto.
    + (* SetMinutes *)
      destruct Hb as (Hd & Ht & Hl). unfold step, setTimerMinutes.
      split; [|split; [exact Ht | exact Hl]].
      cbn [ui setIsEditingTimer setTimerRemaining setTimerDuration onUi
           timerDuration].
      unfold modestEntry in Ht. unfold or_else.
      destruct (parseInt (tempMinutes (ui w))) as [|n]; cbn [truthy].
      * apply small_default.
      * destruct (n =? 0); cbn [negb JS.mul]; [apply small_default|].
        unfold small. lia.
    + (* Tick *)
      unfold step, tick.
      destruct (isRunning (ui w)); cbn [negb settle]; [|exact Hb].
      destruct (mode (ui w)).
      * destruct (startTime (ui w)) as [start|]; [|exact Hb].
        destruct (truthy start); [|exact Hb].
        apply (bounded_frame w); auto.
      * destruct (JS.leb (sub (timerRemaining (ui w)) (Num 1)) (Num 0)).
        -- destruct (handleStop_frame (ui w) now w) as (E1 & E2 & E3).
           destruct (handleStop (ui w) now w) as [w'|]; cbn [andThen settle] in *;
             [|exact Hb].
           apply (bounded_frame w); auto.
        -- apply (bounded_frame w); auto.
  - (* OpenEditor *)
    destruct Hb as (Hd & Ht & Hl). unfold openTimerEditor.
    split; [exact Hd|]. split; [|exact Hl].
    cbn [ui setTempMinutes setIsEditingTimer onUi tempMinutes timerDuration].
    unfold modestEntry. rewrite parseInt_numberToString.
    destruct (timerDuration (ui w)) as [|d]; [destruct Hd|].
    cbn [floorDiv60]. unfold small, maxMinutes in *.
    Z.div_mod_to_equations. lia.
  - (* TypeMinutes *)
    destruct Hb as (Hd & Ht & Hl).
    split; [exact Hd|]. split; [exact Hm | exact Hl].
  - (* Reload *)
    destruct Hb as (_ & _ & Hl). unfold reload, mount.
    cbn [ls ls_trackerMode ls_startTime ls_timerDuration ls_timerStartTime].
    match goal with
    | |- bounded (loadSessions ?x) =>
        assert (Hx : bounded x); [|
          destruct (loadSessions_keeps x) as (_ & _ & _ & _ & E5);
          destruct (loadSessions_display x) as (E7 & _);
          apply (bounded_frame x); auto;
          [unfold loadSessions; destruct (ls_allSessions (ls x)); reflexivity
          | now rewrite E5]]
    end.
    destruct (ls_timerDuration (ls w)) as [text|] eqn:El.
    + destruct Hl as (d & -> & Hd).
      destruct (toString_text d "") as [T X]. rewrite T, X, parseInt_toString.
      destruct (toString_text d "0") as [_ X0]. rewrite X0, parseInt_toString.
      assert (Hf : forall x : World,
                 timerDuration (ui x) = Num d -> tempMinutes (ui x) = "25" ->
                 ls x = ls w -> bounded x).
      { intros x E1 E2 E3. split; [rewrite E1; exact Hd|].
        split; [rewrite E2; apply modestEntry_default|].
        rewrite E3, El. exists d. split; [reflexivity | exact Hd]. }
      destruct (ls_trackerMode (ls w)) as [[|]|];
        destruct (truthyS (ls_startTime (ls w)));
        destruct (truthyS (ls_timerStartTime (ls w)));
        apply Hf; reflexivity.
    + cbn [truthyS andb].
      assert (Hf : forall x : World,
                 timerDuration (ui x) = Num 1500 -> tempMinutes (ui x) = "25" ->
                 ls x = ls w -> bounded x).
      { intros x E1 E2 E3. split; [rewrite E1; apply small_default|].
        split; [rewrite E2; apply modestEntry_default|].
        now rewrite E3, El. }
      destruct (ls_trackerMode (ls w)) as [[|]|];
        destruct (truthyS (ls_startTime (ls w)));
        destruct (truthyS (ls_timerStartTime (ls w)));
        apply Hf; reflexivity.
Qed.

Lemma run_bounded (actions : list (Action * Z)) :
  forall w,
    Forall (fun p => modest (fst p)) actions -> bounded w ->
    bounded (run actions w).
Proof.
  induction actions as [|[a now] actions IH]; intros w Hm Hb; [exact Hb|].
  inversion Hm as [|? ? Ha Hm']; subst. cbn [run].
  apply IH; [exact Hm'|]. now apply act_bounded.
Qed.

Lemma idleWorld_bounded : bounded idleWorld.
Proof.
  split; [apply small_default|]. split; [apply modestEntry_default | exact I].
Qed.

Lemma run_app (before after : list (Action * Z)) (w : World) :
  run (before ++ after) w = run after (run before w).
Proof.
  revert w. induction before as [|[a now] before IH]; intro w; cbn; auto.
Qed.

(** Whatever the user does and whenever the page is reloaded, recorded
    sessions are never lost or altered: the session list only grows at its
    end, by at most one session per action, and every session in it is a
    closed one as [handleStop] builds it. *)
Theorem sessions_only_grow :
  forall (before after : list (Action * Z)),
    Forall (fun p => sane (snd p)) (before ++ after) ->
    let w1 := run before idleWorld in
    let w2 := run (before ++ after) idleWorld in
    (exists rest,
        sessions (ui w2) = (sessions (ui w1) ++ rest)%list
        /\ (List.length rest <= List.length after)%nat)
    /\ Forall closed (sessions (ui w2)).
Proof.
  intros before after Hs. cbv zeta.
  apply Forall_app in Hs as [Hb Hf].
  destruct idleWorld_invariants as [Hc Ha].
  destruct (run_keeps before idleWorld Hb Hc Ha) as (Hc1 & Ha1 & r1 & E1 & _ & F1).
  destruct (run_keeps after _ Hf Hc1 Ha1) as (_ & _ & r2 & E2 & L2 & F2).
  rewrite run_app. split.
  - exists r2. auto.
  - rewrite E2, E1. cbn [idleWorld ui initialState sessions app].
    apply Forall_app. auto.
Qed.

Lemma sessions_only_grow_witness :
  Forall closed
    (sessions (ui (run ([(Handle Start, t0); (Handle Tick, t0 + 1000)]
                        ++ [(Handle Stop, t0 + 5000); (Reload, t0 + 9000)])
                       idleWorld))).
Proof.
  apply (sessions_only_grow [(Handle Start, t0); (Handle Tick, t0 + 1000)]
           [(Handle Stop, t0 + 5000); (Reload, t0 + 9000)]).
  repeat constructor; cbn; unfold t0; lia.
Defined.

(** Closing and reopening the page, after whatever the user did with
    modest entries in the minutes field, brings back the session list, the
    run state and the start instant.  A running stopwatch comes back showing
    the seconds since its start, a running timer with its duration and the
    seconds that remain of it, never less than zero; while running, the mode
    comes back too.  The timer never holds more than [maxMinutes]. *)
Theorem reload_restores :
  forall (actions : list (Action * Z)) (now : Z),
    Forall (fun p => sane (snd p) /\ modest (fst p)) actions ->
    sane now ->
    let w := run actions idleWorld in
    let w' := reload now w in
    sessions (ui w') = sessions (ui w)
    /\ isRunning (ui w') = isRunning (ui w)
    /\ startTime (ui w') = startTime (ui w)
    /\ ls w' = ls w
    /\ small (timerDuration (ui w))
    /\ small (timerDuration (ui w'))
    /\ (isRunning (ui w) = true ->
        mode (ui w') = mode (ui w)
        /\ exists t,
             startTime (ui w) = Some (Num t)
             /\ match mode (ui w) with
                | stopwatch => elapsedTime (ui w') = Num ((now - t) / 1000)
                | timer =>
                    timerDuration (ui w') = timerDuration (ui w)
                    /\ timerRemaining (ui w')
                       = JS.max (Num 0)
                           (sub (timerDuration (ui w)) (Num ((now - t) / 1000)))
                end).
Proof.
  intros actions now Hsm Hnow. cbv zeta.
  assert (Hs : Forall (fun p => sane (snd p)) actions)
    by (eapply Forall_impl; [|exact Hsm]; cbn; tauto).
  assert (Hm : Forall (fun p => modest (fst p)) actions)
    by (eapply Forall_impl; [|exact Hsm]; cbn; tauto).
  pose proof (run_bounded actions idleWorld Hm idleWorld_bounded) as Hb.
  pose proof (act_bounded Reload now _ I Hb) as Hb'.
  unfold act in Hb'. cbn [offered] in Hb'.
  destruct Hb as (Hd & _). destruct Hb' as (Hd' & _).
  destruct idleWorld_invariants as [Hc0 Ha0].
  destruct (run_keeps actions idleWorld Hs Hc0 Ha0) as (Hc & Ha & _).
  remember (run actions idleWorld) as w eqn:Ew. clear Ew Hs Hm Hsm Hc0 Ha0.
  revert Hd Hd'.
  destruct w as [u l]. destruct u as [md run el td tr st ss rg ed tm].
  destruct l as [lm lst lts ltd la].
  intros Hd Hd'.
  unfold coherent, archived in *. cbn [ui ls isRunning startTime mode sessions
    timerDuration ls_startTime ls_trackerMode ls_timerStartTime ls_timerDuration
    ls_allSessions] in Hc, Ha, Hd |- *.
  enough (G : sessions (ui (reload now
                {| ui := mkState md run el td tr st ss rg ed tm;
                   ls := mkLocalStorage lm lst lts ltd la |})) = ss
              /\ isRunning (ui (reload now
                {| ui := mkState md run el td tr st ss rg ed tm;
                   ls := mkLocalStorage lm lst lts ltd la |})) = run
              /\ startTime (ui (reload now
                {| ui := mkState md run el td tr st ss rg ed tm;
                   ls := mkLocalStorage lm lst lts ltd la |})) = st
              /\ ls (reload now
                {| ui := mkState md run el td tr st ss rg ed tm;
                   ls := mkLocalStorage lm lst lts ltd la |})
                 = mkLocalStorage lm lst lts ltd la
              /\ (run = true ->
                  mode (ui (reload now
                    {| ui := mkState md run el td tr st ss rg ed tm;
                       ls := mkLocalStorage lm lst lts ltd la |})) = md
                  /\ exists t,
                       st = Some (Num t)
                       /\ match md with
                          | stopwatch =>
                              elapsedTime (ui (reload now
                                {| ui := mkState md run el td tr st ss rg ed tm;
                                   ls := mkLocalStorage lm lst lts ltd la |}))
                              = Num ((now - t) / 1000)
                          | timer =>
                              timerDuration (ui (reload now
                                {| ui := mkState md run el td tr st ss rg ed tm;
                                   ls := mkLocalStorage lm lst lts ltd la |}))
                              = td
                              /\ timerRemaining (ui (reload now
                                {| ui := mkState md run el td tr st ss rg ed tm;
                                   ls := mkLocalStorage lm lst lts ltd la |}))
                                 = JS.max (Num 0) (sub td (Num ((now - t) / 1000)))
                          end)).
  { destruct G as (G1 & G2 & G3 & G4 & G5). auto 10. }
  clear Hd Hd' Hnow.
  assert (Hload : forall w', ls w' =
                    {| ls_trackerMode := lm; ls_startTime := lst;
                       ls_timerStartTime := lts; ls_timerDuration := ltd;
                       ls_allSessions := la |} ->
                  sessions (ui w') = [] ->
                  sessions (ui (loadSessions w')) = ss).
  { intros w' Hl' Hs'. unfold loadSessions. rewrite Hl'.
    cbn [ls_allSessions]. destruct la; cbn; congruence. }
  unfold reload, mount. cbn [ls ls_trackerMode ls_startTime ls_timerDuration
    ls_timerStartTime].
  match goal with
  | |- context [loadSessions ?x] =>
      destruct (loadSessions_keeps x) as (E1 & E2 & E3 & E4 & E5);
      destruct (loadSessions_display x) as (E7 & E8 & _);
      pose proof (Hload x) as E6
  end.
  rewrite E1, E2, E3, E4, E5, E7, E8. clear E1 E2 E3 E4 E5 E7 E8.
  destruct run.
  - destruct Hc as (t & Hst & Ht & Hl & Hm & Htm). subst lst lm st.
    destruct (toString_text t "") as [T X].
    rewrite T, X, parseInt_toString in *.
    destruct md.
    + destruct (truthyS ltd); cbn [ui ls setElapsedTime setIsRunning
        setStartTime setTimerRemaining setTimerDuration setMode onUi sessions
        isRunning startTime mode elapsedTime initialState sub floorDiv1000] in *;
        (split; [apply E6; reflexivity|]); repeat split; auto;
        exists t; split; reflexivity.
    + destruct (Htm eq_refl) as [-> ->].
      destruct (numberToString_text td "") as [T' X'].
      destruct (numberToString_text td "0") as [_ X0].
      rewrite T', X', X0, parseInt_numberToString, T, X, parseInt_toString in *.
      cbn [andb ui ls setElapsedTime setIsRunning
        setStartTime setTimerRemaining setTimerDuration setMode onUi sessions
        isRunning startTime mode elapsedTime timerDuration timerRemaining
        initialState sub floorDiv1000] in *.
      (split; [apply E6; reflexivity|]). repeat split; auto.
      exists t. repeat split; reflexivity.
  - destruct Hc as (Hst & Hl & Hlt). subst lst st.
    cbn [truthyS] in *.
    destruct lm as [m|]; destruct (truthyS ltd); cbn [ui ls setElapsedTime
      setIsRunning setStartTime setTimerRemaining setTimerDuration setMode onUi
      sessions isRunning startTime mode initialState] in *;
      (split; [apply E6; reflexivity|]); repeat split; auto; discriminate.
Qed.

Lemma reload_restores_witness :
  isRunning (ui (reload (t0 + 9000)
                   (run [(Handle (Switch timer), t0); (OpenEditor, t0 + 1000);
                         (TypeMinutes "10", t0 + 2000);
                         (Handle SetMinutes, t0 + 3000);
                         (Handle Start, t0 + 4000)] idleWorld)))
  = isRunning (ui (run [(Handle (Switch timer), t0); (OpenEditor, t0 + 1000);
                        (TypeMinutes "10", t0 + 2000);
                        (Handle SetMinutes, t0 + 3000);
                        (Handle Start, t0 + 4000)] idleWorld)).
Proof.
  destruct (reload_restores
              [(Handle (Switch timer), t0); (OpenEditor, t0 + 1000);
               (TypeMinutes "10", t0 + 2000); (Handle SetMinutes, t0 + 3000);
               (Handle Start, t0 + 4000)] (t0 + 9000))
    as (_ & H & _).
  - repeat constructor; try (unfold sane, t0; cbn [snd]; lia).
    vm_compute. discriminate.
  - unfold sane, t0. lia.
  - exact H.
Defined.

Lemma setTimerRemaining_twice (a b : number) (w : World) :
  setTimerRemaining a (setTimerRemaining b w) = setTimerRemaining a w.
Proof. reflexivity. Qed.

Lemma setElapsedTime_twice (a b : number) (w : World) :
  setElapsedTime a (setElapsedTime b w) = setElapsedTime a w.
Proof. reflexivity. Qed.

Lemma run_tick (now : Z) (clock : list Z) (w : World) :
  isRunning (ui w) = true ->
  run (ticks (now :: clock)) w = run (ticks clock) (step Tick now w).
Proof. intro H. cbn. unfold act. cbn [offered]. now rewrite H. Qed.

(** While more ticks remain than have fired, a running timer shows its
    display minus the number of ticks and nothing else has changed. *)
Lemma timer_countdown (clock : list Z) :
  forall (w : World) (p : Z),
    isRunning (ui w) = true -> mode (ui w) = timer ->
    timerRemaining (ui w) = Num p -> Z.of_nat (List.length clock) < p ->
    run (ticks clock) w
    = match clock with
      | [] => w
      | _ => setTimerRemaining (Num (p - Z.of_nat (List.length clock))) w
      end.
Proof.
  induction clock as [|now clock IH]; intros w p Hr Hm Hp Hlt; [reflexivity|].
  cbn [List.length] in Hlt. rewrite run_tick by assumption.
  unfold step. rewrite (tick_timer_decrement _ now p) by (assumption || lia).
  cbn [settle].
  rewrite (IH _ (p - 1)) by (assumption || reflexivity || lia).
  destruct clock as [|now' clock].
  - reflexivity.
  - rewrite setTimerRemaining_twice. do 2 f_equal. cbn [List.length]. lia.
Qed.

(** A running timer is driven by the number of ticks, not by the clock.
    Showing [p] seconds, a safe integer, it shows [p - n] after [n < p]
    ticks whatever the clock readings were, still running and with nothing
    recorded; the tick that takes it to zero (the first tick when [p <= 1])
    stops it and records one session, from the start instant to the reading
    of that tick. *)
Theorem timer_counts_ticks :
  forall (w : World) (p t last : Z) (clock : list Z),
    isRunning (ui w) = true -> mode (ui w) = timer ->
    timerRemaining (ui w) = Num p -> Exact.safe p ->
    startTime (ui w) = Some (Num t) -> t <> 0 -> validTime t = true ->
    (Z.of_nat (List.length clock) < p ->
     let w' := run (ticks clock) w in
     timerRemaining (ui w') = Num (p - Z.of_nat (List.length clock))
     /\ isRunning (ui w') = true
     /\ sessions (ui w') = sessions (ui w)
     /\ ls w' = ls w)
    /\ (Z.of_nat (List.length clock) = Z.max 0 (p - 1) ->
        let w' := run (ticks (clock ++ [last])) w in
        isRunning (ui w') = false
        /\ startTime (ui w') = None
        /\ sessions (ui w')
           = (sessions (ui w)
              ++ [{| s_startTime := t; s_endTime := Some last;
                     s_duration := (last - t) / 1000; s_mode := timer;
                     s_date := isoDate t |}])%list
        /\ ls_startTime (ls w') = None
        /\ ls_timerStartTime (ls w') = None).
Proof.
  intros w p t last clock Hr Hm Hp _ Hs Hz Hv. split.
  - intro Hlt. cbv zeta. rewrite (timer_countdown clock w p) by assumption.
    destruct clock; cbn [List.length].
    + rewrite Hp. repeat split; auto. f_equal. lia.
    + repeat split; auto.
  - intro Hlen. cbv zeta. unfold ticks. rewrite map_app, run_app.
    fold (ticks clock). fold (ticks [last]).
    assert (E : exists q,
               q <= 1 /\ timerRemaining (ui (run (ticks clock) w)) = Num q
               /\ isRunning (ui (run (ticks clock) w)) = true
               /\ mode (ui (run (ticks clock) w)) = timer
               /\ startTime (ui (run (ticks clock) w)) = Some (Num t)
               /\ sessions (ui (run (ticks clock) w)) = sessions (ui w)).
    { destruct (Z.le_gt_cases p 1) as [Hle|Hgt].
      - assert (clock = []) as -> by (destruct clock; [reflexivity | cbn in Hlen; lia]).
        exists p. cbn. auto 10.
      - rewrite (timer_countdown clock w p) by (assumption || lia).
        exists 1. destruct clock as [|c clock]; [cbn in Hlen; lia|].
        repeat split; auto; try lia. cbn [setTimerRemaining onUi ui timerRemaining].
        f_equal. lia. }
    destruct E as (q & Hq & Hp' & Hr' & Hm' & Hs' & Hss).
    rewrite run_tick by assumption. cbn [ticks map run]. unfold step.
    rewrite (tick_timer_expiry _ last q) by assumption.
    rewrite (handleStop_active _ last t) by assumption.
    rewrite Hm', Hss. repeat split; reflexivity.
Qed.

Lemma timer_counts_ticks_witness :
  timerRemaining (ui (run (ticks [t0 + 9000; t0 + 60000]) runningTimer)) = Num (1500 - 2)
  /\ isRunning (ui (run (ticks ([] ++ [t0 + 1500000])) lastSecond)) = false.
Proof.
  split.
  - apply (timer_counts_ticks runningTimer 1500 t0 0 [t0 + 9000; t0 + 60000]);
      try reflexivity;
      try (unfold Exact.safe, Exact.MAX_SAFE_INTEGER; lia);
      (vm_compute; congruence).
  - apply (timer_counts_ticks lastSecond 1 t0 (t0 + 1500000) []);
      try reflexivity;
      try (unfold Exact.safe, Exact.MAX_SAFE_INTEGER; lia);
      (vm_compute; congruence).
Defined.

(** A running stopwatch shows, after any ticks, the whole seconds between
    its start and the reading of the last tick, however many ticks were
    missed; ticks record nothing and leave the storage alone. *)
Theorem stopwatch_follows_clock :
  forall (w : World) (t last : Z) (clock : list Z),
    isRunning (ui w) = true -> mode (ui w) = stopwatch ->
    startTime (ui w) = Some (Num t) -> t <> 0 ->
    run (ticks (clock ++ [last])) w = setElapsedTime (Num ((last - t) / 1000)) w.
Proof.
  intros w t last clock Hr Hm Hs Hz. apply Z.eqb_neq in Hz.
  assert (Htick : forall now w', isRunning (ui w') = true ->
                    mode (ui w') = stopwatch -> startTime (ui w') = Some (Num t) ->
                    step Tick now w' = setElapsedTime (Num ((now - t) / 1000)) w').
  { intros now w' Hr' Hm' Hs'. unfold step, tick.
    rewrite Hr', Hm', Hs'. cbn [negb truthy]. rewrite Hz. reflexivity. }
  revert w Hr Hm Hs.
  induction clock as [|now clock IH]; intros w Hr Hm Hs.
  - cbn [app]. rewrite run_tick by assumption. cbn [ticks map run].
    now apply Htick.
  - cbn [app]. rewrite run_tick by assumption.
    rewrite Htick by assumption. rewrite IH by assumption.
    apply setElapsedTime_twice.
Qed.

Lemma stopwatch_follows_clock_witness :
  run (ticks ([t0 + 1000] ++ [t0 + 61500])) runningStopwatch
  = setElapsedTime (Num 61) runningStopwatch.
Proof.
  apply (stopwatch_follows_clock runningStopwatch t0 (t0 + 61500) [t0 + 1000]);
    try reflexivity. vm_compute. congruence.
Defined.

(** A running timer whose display is NaN, as after a [timerDuration] entry
    that is not a number, never runs out: no tick changes anything. *)
Theorem timer_without_number_never_stops :
  forall (w : World) (clock : list Z),
    isRunning (ui w) = true -> mode (ui w) = timer ->
    timerRemaining (ui w) = NaN ->
    run (ticks clock) w = w.
Proof.
  intros w clock Hr Hm Hp. induction clock as [|now clock IH]; [reflexivity|].
  rewrite run_tick by assumption.
  assert (E : step Tick now w = w).
  { unfold step, tick. rewrite Hr, Hm, Hp. cbn.
    destruct w as [u l]. destruct u. cbn in Hp. subst. reflexivity. }
  now rewrite E.
Qed.

Lemma timer_without_number_never_stops_witness :
  run (ticks [t0 + 1000; t0 + 2000000]) brokenTimer = brokenTimer.
Proof.
  apply (timer_without_number_never_stops brokenTimer [t0 + 1000; t0 + 2000000]);
    reflexivity.
Defined.

(** A start followed by a stop records the interval between the two clock
    readings: one session is appended, from the reading at the start to the
    reading at the stop, in the mode that was running, whose duration is the
    number of whole seconds in between; the controller is idle again and
    the resumption entries are gone. *)
Theorem start_then_stop_records_interval :
  forall (w : World) (t t' : Z),
    isRunning (ui w) = false -> sane t ->
    let w' := run [(Handle Start, t); (Handle Stop, t')] w in
    exists s,
      sessions (ui w') = (sessions (ui w) ++ [s])%list
      /\ s_startTime s = t /\ s_endTime s = Some t'
      /\ s_mode s = mode (ui w)
      /\ s_duration s * 1000 <= t' - t < s_duration s * 1000 + 1000
      /\ (t <= t' -> 0 <= s_duration s)
      /\ isRunning (ui w') = false
      /\ startTime (ui w') = None
      /\ ls_startTime (ls w') = None
      /\ ls_timerStartTime (ls w') = None.
Proof.
  intros w t t' Hr Ht. cbv zeta.
  destruct (sane_active t Ht) as [Hz Hv].
  exists {| s_startTime := t; s_endTime := Some t';
            s_duration := (t' - t) / 1000; s_mode := mode (ui w);
            s_date := isoDate t |}.
  assert (E : run [(Handle Start, t); (Handle Stop, t')] w
              = step Stop t' (step Start t w)).
  { cbn [run]. unfold act. cbn [offered]. rewrite Hr. cbn [negb].
    assert (R : isRunning (ui (step Start t w)) = true)
      by (unfold step, handleStart; destruct (mode (ui w)); reflexivity).
    now rewrite R. }
  rewrite E. clear E.
  assert (S1 : startTime (ui (step Start t w)) = Some (Num t))
    by (unfold step, handleStart; destruct (mode (ui w)); reflexivity).
  assert (M1 : mode (ui (step Start t w)) = mode (ui w))
    by (unfold step, handleStart; destruct (mode (ui w)) eqn:M; cbn; auto).
  assert (L1 : sessions (ui (step Start t w)) = sessions (ui w))
    by (unfold step, handleStart; destruct (mode (ui w)); reflexivity).
  remember (step Start t w) as w1 eqn:E1. clear E1.
  assert (E2 : step Stop t' w1 = settle w1 (handleStop (ui w1) t' w1))
    by reflexivity.
  rewrite E2, (handleStop_active _ t' t _ S1 Hz Hv), M1, L1.
  cbn [s_startTime s_endTime s_mode s_duration settle].
  assert (D : (t' - t) / 1000 * 1000 <= t' - t < (t' - t) / 1000 * 1000 + 1000)
    by (Z.div_mod_to_equations; lia).
  assert (P : t <= t' -> 0 <= (t' - t) / 1000)
    by (intro; apply Z.div_pos; lia).
  destruct (mode (ui w)); repeat split; try reflexivity; try apply D; exact P.
Qed.

Lemma start_then_stop_records_interval_witness :
  exists s,
    sessions (ui (run [(Handle Start, t0); (Handle Stop, t0 + 5999)] idleWorld))
    = (sessions (ui idleWorld) ++ [s])%list
    /\ s_startTime s = t0.
Proof.
  destruct (start_then_stop_records_interval idleWorld t0 (t0 + 5999))
    as (s & H1 & H2 & _).
  - reflexivity.
  - unfold sane, t0. lia.
  - exists s. split; assumption.
Defined.

(** Opening the minutes field and pressing Set without typing rounds a
    timer whose seconds are a safe integer down to whole minutes; a timer of
    less than a minute, or one that is not a number, becomes the 25-minute
    default.  A duration that is a non-zero whole number of minutes is left
    as it is. *)
Theorem editor_round_trip :
  forall (w : World),
    match timerDuration (ui w) with
    | Num d =>
        Exact.safe d ->
        timerDuration (ui (editUnchanged w))
        = Num (if d / 60 =? 0 then 1500 else d / 60 * 60)
        /\ (d mod 60 = 0 -> d <> 0 ->
            timerDuration (ui (editUnchanged w)) = Num d)
    | NaN => timerDuration (ui (editUnchanged w)) = Num 1500
    end.
Proof.
  intro w. unfold editUnchanged, openTimerEditor, setTimerMinutes.
  cbn [ui setTempMinutes setIsEditingTimer onUi tempMinutes setTimerRemaining
       setTimerDuration timerDuration].
  rewrite parseInt_numberToString.
  destruct (timerDuration (ui w)) as [|d]; [reflexivity|]. intros _.
  cbn [floorDiv60]. unfold or_else. cbn [truthy].
  destruct (Z.eqb_spec (d / 60) 0) as [E|E]; cbn [negb JS.mul].
  - split; [reflexivity|]. intros Hm Hz. exfalso.
    Z.div_mod_to_equations. lia.
  - split; [reflexivity|]. intros Hm Hz. f_equal.
    Z.div_mod_to_equations. lia.
Qed.

Lemma editor_round_trip_witness :
  timerDuration (ui (editUnchanged runningTimer)) = Num 1500.
Proof.
  apply (editor_round_trip runningTimer);
    [unfold Exact.safe, Exact.MAX_SAFE_INTEGER; lia | reflexivity | discriminate].
Defined.

Lemma handleStop_inactive (c : State) (now : Z) (w : World) :
  active c = false -> handleStop c now w = Returned w.
Proof.
  intro H. unfold active in H. unfold handleStop.
  destruct (startTime c) as [[|start]|]; try reflexivity.
  cbn [truthy] in H. apply negb_false_iff in H. rewrite H. reflexivity.
Qed.

(** What an action other than Reset does to a page stuck on an unusable
    [startTime] entry: it stays stuck, with the same entries and sessions. *)
Lemma act_stuck (a : Action) (now : Z) (w : World) :
  isReset a = false -> stuck w -> archived w ->
  stuck (act a now w) /\ archived (act a now w)
  /\ ls (act a now w) = ls w
  /\ sessions (ui (act a now w)) = sessions (ui w).
Proof.
  intros Hreset (Hr & Hact & Ht & Hp) Ha.
  assert (Same : stuck w /\ archived w /\ ls w = ls w
                 /\ sessions (ui w) = sessions (ui w))
    by (repeat split; auto).
  unfold act. destruct (offered a (ui w)) eqn:Ho; [|exact Same].
  destruct a as [e| |v|].
  - destruct e as [| | |m| |]; try discriminate Hreset.
    + cbn in Ho. rewrite Hr in Ho. discriminate Ho.
    + unfold step. rewrite handleStop_inactive by assumption. exact Same.
    + unfold step, switchMode. rewrite Hr, handleStop_inactive by assumption.
      cbn [andThen settle]. unfold stuck, archived, active in *.
      destruct w as [u l]. destruct u. cbn in *. auto 10.
    + cbn in Ho. rewrite Hr in Ho. destruct (mode (ui w)); discriminate Ho.
    + unfold step, tick. rewrite Hr. cbn [negb].
      destruct (mode (ui w)) eqn:Hm.
      * destruct (startTime (ui w)) as [n|] eqn:Hs; [|exact Same].
        unfold active in Hact. rewrite Hs in Hact. rewrite Hact. exact Same.
      * destruct (JS.leb _ _).
        -- rewrite handleStop_inactive by assumption.
           cbn [andThen settle]. unfold stuck, archived, active in *.
           destruct w as [u l]. destruct u. cbn in *. auto 10.
        -- cbn [settle]. unfold stuck, archived, active in *.
           destruct w as [u l]. destruct u. cbn in *. auto 10.
  - cbn in Ho. rewrite Hr in Ho. destruct (mode (ui w)); discriminate Ho.
  - cbn in Ho. rewrite Hr in Ho. destruct (mode (ui w)); discriminate Ho.
  - unfold reload, mount. cbn [ls].
    match goal with
    | |- context [loadSessions ?x] =>
        destruct (loadSessions_keeps x) as (E1 & E2 & E3 & _ & E5)
    end.
    unfold stuck, archived, active in *.
    rewrite E1, E2, E5. rewrite Ht.
    assert (Hsess : forall x, ls x = ls w -> sessions (ui x) = [] ->
                      sessions (ui (loadSessions x)) = sessions (ui w)).
    { intros x Hl Hs. unfold loadSessions. rewrite Hl.
      destruct (ls_allSessions (ls w)); cbn; congruence. }
    assert (Harch : forall x, ls x = ls w -> sessions (ui x) = [] ->
                      match ls_allSessions (ls w) with
                      | ArchiveOf l0 => sessions (ui (loadSessions x)) = l0
                      | _ => sessions (ui (loadSessions x)) = []
                      end).
    { intros x Hl Hs. unfold loadSessions. rewrite Hl.
      destruct (ls_allSessions (ls w)); cbn; congruence. }
    destruct (ls_trackerMode (ls w)) as [[|]|];
      destruct (truthyS (ls_timerDuration (ls w)));
      destruct (truthyS (ls_timerStartTime (ls w)));
      cbn [andb ui ls setElapsedTime setIsRunning setStartTime setTimerRemaining
           setTimerDuration setMode onUi isRunning startTime] in *;
      (split; [repeat split; auto|]);
      (split; [apply Harch; reflexivity|]);
      (split; [reflexivity|]);
      apply Hsess; reflexivity.
Qed.

(** A [startTime] entry that holds text [parseInt] cannot read, or "0",
    makes the page come up running with a Stop button that does nothing:
    whatever the user does short of Reset, and however often the page is
    reloaded, the controller stays running and no session is recorded.
    Reset brings it back to idle. *)
Theorem unusable_start_entry_sticks :
  forall (w0 : World) (now0 now : Z) (actions : list (Action * Z)),
    truthyS (ls_startTime (ls w0)) = true ->
    truthy (parseInt (textOr (ls_startTime (ls w0)) "")) = false ->
    Forall (fun p => isReset (fst p) = false) actions ->
    let w := run actions (reload now0 w0) in
    isRunning (ui w) = true
    /\ sessions (ui w) = sessions (ui (reload now0 w0))
    /\ step Stop now w = w
    /\ isRunning (ui (act (Handle Reset) now w)) = false.
Proof.
  intros w0 now0 now actions Ht Hp Hf. cbv zeta.
  assert (H0 : stuck (reload now0 w0) /\ archived (reload now0 w0)).
  { unfold reload, mount. cbn [ls].
    match goal with
    | |- context [loadSessions ?x] =>
        destruct (loadSessions_keeps x) as (E1 & E2 & E3 & _ & E5)
    end.
    unfold stuck, archived, active. rewrite E1, E2, E5, Ht.
    assert (Harch : forall x, ls x = ls w0 -> sessions (ui x) = [] ->
                      match ls_allSessions (ls w0) with
                      | ArchiveOf l0 => sessions (ui (loadSessions x)) = l0
                      | _ => sessions (ui (loadSessions x)) = []
                      end).
    { intros x Hl Hs. unfold loadSessions. rewrite Hl.
      destruct (ls_allSessions (ls w0)); cbn; congruence. }
    destruct (ls_trackerMode (ls w0)) as [[|]|];
      destruct (truthyS (ls_timerDuration (ls w0)));
      destruct (truthyS (ls_timerStartTime (ls w0)));
      cbn [andb ui ls setElapsedTime setIsRunning setStartTime setTimerRemaining
           setTimerDuration setMode onUi isRunning startTime] in *;
      (split; [repeat split; auto|]);
      apply Harch; reflexivity. }
  destruct H0 as [Hs Ha].
  assert (Hrun : forall acts w,
             Forall (fun p => isReset (fst p) = false) acts ->
             stuck w -> archived w ->
             stuck (run acts w) /\ sessions (ui (run acts w)) = sessions (ui w)).
  { induction acts as [|[a n] acts IH]; intros w Hfa Hsw Haw; [split; auto|].
    inversion Hfa as [|? ? Hr' Hf']; subst. cbn [fst] in Hr'.
    destruct (act_stuck a n w Hr' Hsw Haw) as (S1 & A1 & _ & E1).
    destruct (IH _ Hf' S1 A1) as [S2 E2].
    cbn [run]. split; [exact S2 | congruence]. }
  destruct (Hrun actions _ Hf Hs Ha) as [(Hr & Hact & _) Hsess].
  split; [exact Hr|]. split; [exact Hsess|]. split.
  - unfold step. now rewrite handleStop_inactive.
  - unfold act. cbn [offered]. reflexivity.
Qed.

Lemma unusable_start_entry_sticks_witness :
  isRunning
    (ui (run [(Handle Stop, t0 + 5000); (Handle (Switch timer), t0 + 6000);
              (Handle Tick, t0 + 7000); (Reload, t0 + 8000)]
           (reload t0 (putStartTime (Some "0"%string) idleWorld)))) = true.
Proof.
  apply (unusable_start_entry_sticks (putStartTime (Some "0"%string) idleWorld)
           t0 t0
           [(Handle Stop, t0 + 5000); (Handle (Switch timer), t0 + 6000);
            (Handle Tick, t0 + 7000); (Reload, t0 + 8000)]);
    try reflexivity.
  repeat constructor.
Defined.

End RunFacts.

(** ** Sorting puts a list in order *)

Section SortOrder.

Import Aggregation.

Context {A : Type} (cmp : A -> A -> comparison).
Hypothesis cmp_total : forall x y, cmp x y = Gt -> cmp y x <> Gt.

Lemma insertSorted_Sorted (x : A) (l : list A) :
  Sorted (fun a b => cmp a b <> Gt) l ->
  Sorted (fun a b => cmp a b <> Gt) (insertSorted cmp x l).
Proof.
  induction l as [|y r IH]; intro Hs; cbn [insertSorted].
  - repeat constructor.
  - inversion Hs as [|? ? Hr Hy]; subst.
    destruct (cmp x y) eqn:E.
    + constructor; [exact Hs|]. constructor. congruence.
    + constructor; [exact Hs|]. constructor. congruence.
    + constructor; [apply IH, Hr|].
      destruct r as [|z r]; cbn [insertSorted].
      * constructor. now apply cmp_total.
      * destruct (cmp x z); constructor;
          try (now apply cmp_total); inversion Hy; assumption.
Qed.

Lemma sort_Sorted (l : list A) :
  Sorted (fun a b => cmp a b <> Gt) (sort cmp l).
Proof.
  induction l as [|x l IH]; cbn; [constructor|].
  now apply insertSorted_Sorted.
Qed.

End SortOrder.

(** ** The clock display and today's summary *)

Section DisplayFacts.

Import JS JSDate Controller Display.
Local Open Scope string_scope.
Local Open Scope Z_scope.

(** A number below 100 prints, padded, as its two digits. *)
Lemma padStart2_two_digits (n : Z) :
  0 <= n < 100 ->
  padStart2 (toString n) = String (digitChar (n / 10)) (String (digitChar n) "").
Proof.
  intro Hn. unfold toString.
  destruct (Z.ltb_spec n 0) as [?|_]; [lia|].
  rewrite Z.abs_eq by lia.
  destruct (Z.lt_ge_cases n 10) as [Hlt|Hge].
  - cbn [natToString].
    assert (E : n / 10 = 0) by (Z.div_mod_to_equations; lia).
    rewrite E. reflexivity.
  - assert (Hlog : 3 <= Z.log2 n).
    { change 3 with (Z.log2 8). apply Z.log2_le_mono. lia. }
    destruct (Z.to_nat (Z.log2 n)) as [|f] eqn:Ef; [lia|].
    cbn [natToString].
    destruct (Z.eqb_spec (n / 10) 0) as [E|_];
      [exfalso; Z.div_mod_to_equations; lia|].
    assert (E : n / 10 / 10 = 0) by (Z.div_mod_to_equations; lia).
    rewrite E. reflexivity.
Qed.

Lemma parseInt_two_digits (a b : Z) :
  parseInt (String (digitChar a) (String (digitChar b) ""))
  = Num (10 * (a mod 10) + b mod 10).
Proof.
  rewrite parseInt_digit. cbn [digits]. now rewrite !digitOf_digitChar.
Qed.

(** One character reads as less than ten. *)
Lemma parseInt_one_char (c : ascii) (v : Z) :
  parseInt (String c "") = Num v -> v < 10.
Proof.
  destruct c as [b0 b1 b2 b3 b4 b5 b6 b7].
  destruct b0, b1, b2, b3, b4, b5, b6, b7; vm_compute;
    intro H; inversion H; reflexivity.
Qed.

Lemma parseInt_padStart2 (n : Z) : 0 <= n -> parseInt (padStart2 (toString n)) = Num n.
Proof.
  intro Hn. destruct (Z.lt_ge_cases n 100) as [Hlt|Hge].
  - rewrite padStart2_two_digits, parseInt_two_digits by lia.
    f_equal. Z.div_mod_to_equations. lia.
  - pose proof (parseInt_toString n) as H.
    destruct (toString n) as [|c [|c' r]] eqn:E.
    + discriminate H.
    + apply parseInt_one_char in H. lia.
    + exact H.
Qed.

(** For a duration that is not negative, and a safe integer, the clock
    reads hours, minutes and seconds: minutes and seconds are two digits
    below 60, the hours are not wrapped at 24 and read back as the whole
    hours of the duration, and the three fields add up to it.  Below 100
    hours the text is eight characters long. *)
Theorem formatTime_fields :
  forall z : Z,
    0 <= z <= Exact.MAX_SAFE_INTEGER ->
    let h := z / 3600 in
    let m := z mod 3600 / 60 in
    let s := z mod 60 in
    formatTime (Num z)
    = padStart2 (toString h) ++ ":"
      ++ String (digitChar (m / 10)) (String (digitChar m) "") ++ ":"
      ++ String (digitChar (s / 10)) (String (digitChar s) "")
    /\ z = 3600 * h + 60 * m + s
    /\ 0 <= m < 60 /\ 0 <= s < 60
    /\ parseInt (padStart2 (toString h)) = Num h
    /\ (z < 360000 -> String.length (formatTime (Num z)) = 8%nat).
Proof.
  intros z [Hz _] h m s.
  assert (Hm : 0 <= m < 60) by (subst m; Z.div_mod_to_equations; lia).
  assert (Hs : 0 <= s < 60) by (subst s; Z.div_mod_to_equations; lia).
  assert (Hh : 0 <= h) by (subst h; apply Z.div_pos; lia).
  assert (E : formatTime (Num z)
              = padStart2 (toString h) ++ ":"
                ++ String (digitChar (m / 10)) (String (digitChar m) "") ++ ":"
                ++ String (digitChar (s / 10)) (String (digitChar s) "")).
  { unfold formatTime, formatSeconds.
    rewrite !Z.rem_mod_nonneg by lia. fold h m s.
    now rewrite (padStart2_two_digits m), (padStart2_two_digits s) by lia. }
  split; [exact E|].
  split; [subst h m s; Z.div_mod_to_equations; lia|].
  split; [exact Hm|]. split; [exact Hs|].
  split; [now apply parseInt_padStart2|].
  intro Hlt. rewrite E, (padStart2_two_digits h)
    by (subst h; Z.div_mod_to_equations; lia).
  reflexivity.
Qed.

Lemma formatTime_fields_witness :
  String.length (formatTime (Num 90061)) = 8%nat
  /\ parseInt (padStart2 (toString (90061 / 3600))) = Num 25.
Proof.
  destruct (formatTime_fields 90061) as (_ & _ & _ & _ & H5 & H6);
    [unfold Exact.MAX_SAFE_INTEGER; lia|].
  split; [apply H6; lia | exact H5].
Defined.

Lemma totalSeconds_from (l : list Session) :
  forall acc,
    fold_left (fun sum s => sum + s_duration s) l acc = acc + totalSeconds l.
Proof.
  unfold totalSeconds.
  induction l as [|x l IH]; intro acc; cbn [fold_left]; [lia|].
  rewrite (IH (acc + s_duration x)), (IH (0 + s_duration x)). lia.
Qed.

Lemma totalSeconds_app (l1 l2 : list Session) :
  totalSeconds (l1 ++ l2) = totalSeconds l1 + totalSeconds l2.
Proof.
  unfold totalSeconds at 1. rewrite fold_left_app.
  fold (totalSeconds l1). apply totalSeconds_from.
Qed.

(** Stopping a run adds its whole seconds to today's total when the run
    started on today's date (its UTC date), and leaves the total alone when
    it started on another date. *)
Theorem today_total_after_stop :
  forall (w : World) (t now view : Z),
    startTime (ui w) = Some (Num t) -> t <> 0 -> validTime t = true ->
    let before := totalSeconds (todaySessions (ui w) view) in
    let after := totalSeconds (todaySessions (ui (step Stop now w)) view) in
    (isoDate t = isoDate view -> after = before + (now - t) / 1000)
    /\ (isoDate t <> isoDate view -> after = before).
Proof.
  intros w t now view Hs Hz Hv. cbv zeta.
  assert (E : sessions (ui (step Stop now w))
              = (sessions (ui w)
                 ++ [{| s_startTime := t; s_endTime := Some now;
                        s_duration := (now - t) / 1000; s_mode := mode (ui w);
                        s_date := isoDate t |}])%list).
  { unfold step. rewrite (handleStop_active _ now t) by assumption.
    destruct (mode (ui w)); reflexivity. }
  unfold todaySessions. rewrite E, filter_app, totalSeconds_app.
  cbn [filter s_date]. split; intro H.
  - apply String.eqb_eq in H. rewrite H. cbn. lia.
  - apply String.eqb_neq in H. rewrite H. cbn. lia.
Qed.

Lemma today_total_after_stop_witness :
  totalSeconds (todaySessions (ui (step Stop (t0 + 5999) runningStopwatch)) (t0 + 9000))
  = totalSeconds (todaySessions (ui runningStopwatch) (t0 + 9000))
    + (t0 + 5999 - t0) / 1000.
Proof.
  apply (today_total_after_stop runningStopwatch t0 (t0 + 5999) (t0 + 9000));
    try reflexivity. vm_compute. congruence.
Defined.

Lemma latestFirst_total (a b : Session) :
  latestFirst a b = Gt -> latestFirst b a <> Gt.
Proof.
  unfold latestFirst. intros H1 H2.
  apply Z.compare_gt_iff in H1. apply Z.compare_gt_iff in H2. lia.
Qed.

(** The list under "Today's Sessions" holds exactly the sessions filed
    under today's date, each once, the latest start first; they are the
    sessions of today's bucket of the daily breakdown. *)
Theorem todaySessions_latest_first :
  forall (c : State) (now : Z),
    Permutation (getTodaySessions c now) (todaySessions c now)
    /\ (forall s, In s (getTodaySessions c now)
                  <-> In s (sessions c) /\ s_date s = isoDate now)
    /\ StronglySorted (fun a b => s_startTime b <= s_startTime a)
                      (getTodaySessions c now)
    /\ (forall b, In b (Aggregation.groupByDay (sessions c)) ->
                  d_date b = isoDate now ->
                  d_sessions b = todaySessions c now).
Proof.
  intros c now.
  assert (P : Permutation (getTodaySessions c now) (todaySessions c now))
    by apply sort_perm.
  split; [exact P|]. split; [|split].
  - intro s. split.
    + intro H. apply (Permutation_in _ P) in H.
      unfold todaySessions in H. apply filter_In in H as [H1 H2].
      apply String.eqb_eq in H2. auto.
    + intros [H1 H2]. apply (Permutation_in _ (Permutation_sym P)).
      unfold todaySessions. apply filter_In. split; [exact H1|].
      now apply String.eqb_eq.
  - apply Sorted_StronglySorted.
    + intros x y z Hxy Hyz. lia.
    + unfold getTodaySessions.
      pose proof (sort_Sorted latestFirst latestFirst_total (todaySessions c now)) as H.
      eapply Sorted_ind with (P := fun l => Sorted (fun a b => s_startTime b <= s_startTime a) l);
        [constructor | | exact H].
      intros a l Hl IH Hd. constructor; [exact IH|].
      destruct Hd as [|b l Hab]; constructor.
      unfold latestFirst in Hab.
      destruct (Z.compare_spec (s_startTime b - s_startTime a) 0); try lia.
      congruence.
  - intros b Hb Hd. apply groupByDay_In in Hb as [_ ->].
    cbn [Aggregation.bucketOf d_sessions d_date] in *. rewrite Hd. reflexivity.
Qed.

Lemma todaySessions_latest_first_witness :
  Permutation (getTodaySessions Aggregation.timelineState Aggregation.noon)
              (todaySessions Aggregation.timelineState Aggregation.noon).
Proof.
  destruct (todaySessions_latest_first Aggregation.timelineState Aggregation.noon)
    as [H _].
  exact H.
Defined.

End DisplayFacts.

(** ** Ranges of the analytics view *)

Section RangeFacts.

Import JS JSDate Controller Aggregation Ranges.
Local Open Scope Z_scope.

Lemma month_back (y m : Z) :
  0 <= m <= 11 ->
  28 <= daysFromCivil y m 1 - daysFromCivil (y + (m - 1) / 12) ((m - 1) mod 12) 1 <= 31.
Proof.
  intro Hm.
  destruct (Z.eq_dec m 0) as [->|Hz].
  - change ((0 - 1) / 12) with (-1). change ((0 - 1) mod 12) with 11.
    unfold daysFromCivil. cbn [Z.leb Z.compare Pos.compare Pos.compare_cont].
    Z.div_mod_to_equations. lia.
  - assert (E1 : (m - 1) / 12 = 0) by (Z.div_mod_to_equations; lia).
    assert (E2 : (m - 1) mod 12 = m - 1) by (Z.div_mod_to_equations; lia).
    rewrite E1, E2. unfold daysFromCivil.
    destruct (Z.leb_spec m 1); destruct (Z.leb_spec (m - 1) 1);
      Z.div_mod_to_equations; lia.
Qed.

Lemma year_back (y m : Z) :
  0 <= m <= 11 ->
  365 <= daysFromCivil y m 1 - daysFromCivil (y - 1) m 1 <= 366.
Proof.
  intro Hm. unfold daysFromCivil.
  destruct (m <=? 1); Z.div_mod_to_equations; lia.
Qed.

Lemma makeDay_in_range (y m d : Z) :
  0 <= m <= 11 -> makeDay y m d = daysFromCivil y m 1 + (d - 1).
Proof.
  intro Hm. unfold makeDay.
  assert (E1 : m / 12 = 0) by (Z.div_mod_to_equations; lia).
  assert (E2 : m mod 12 = m) by (Z.div_mod_to_equations; lia).
  rewrite E1, E2. f_equal. f_equal. lia.
Qed.

Lemma daysFromCivil_day (y m d : Z) :
  daysFromCivil y m d = daysFromCivil y m 1 + (d - 1).
Proof. unfold daysFromCivil. lia. Qed.

(** The boundaries of the four ranges, in days before local midnight. *)
Lemma rangeBoundary_spec (tz now : Z) :
  let midnight := day (now + tz * msPerMinute) * msPerDay - tz * msPerMinute in
  rangeBoundary tz today now = midnight
  /\ rangeBoundary tz week now = midnight - 7 * msPerDay
  /\ 28 * msPerDay <= midnight - rangeBoundary tz month now <= 31 * msPerDay
  /\ 365 * msPerDay <= midnight - rangeBoundary tz year now <= 366 * msPerDay.
Proof.
  cbv zeta. unfold rangeBoundary, localCivil, localTime.
  pose proof (civilFromDays_spec (day (now + tz * msPerMinute))) as H.
  destruct (civilFromDays (day (now + tz * msPerMinute))) as [[y m] d].
  destruct H as (Hn & Hm & Hd).
  rewrite daysFromCivil_day in Hn.
  rewrite (makeDay_in_range y m d), (makeDay_in_range y m (d - 7)),
    (makeDay_in_range (y - 1) m d) by lia.
  pose proof (month_back y m Hm) as Hmb.
  pose proof (year_back y m Hm) as Hyb.
  unfold makeDay. unfold msPerDay in *.
  repeat split; lia.
Qed.

Lemma inRange_wider (tz now : Z) (r r' : TimeRange) (s : Session) :
  rank r <= rank r' -> inRange tz r now s = true -> inRange tz r' now s = true.
Proof.
  intros Hr H. unfold inRange in *.
  apply andb_prop in H as [Hv Hb]. rewrite Hv. cbn [andb].
  apply Z.leb_le in Hb. apply Z.leb_le.
  destruct (rangeBoundary_spec tz now) as (E1 & E2 & E3 & E4).
  cbv zeta in *. unfold msPerDay in *.
  destruct r, r'; cbn in Hr; try lia.
Qed.

Lemma getFilteredSessions_wider (tz now : Z) (w : World) (r r' : TimeRange) :
  rank r <= rank r' ->
  incl (getFilteredSessions tz (ui (setTimeRange r w)) now)
       (getFilteredSessions tz (ui (setTimeRange r' w)) now).
Proof.
  intros Hr s Hs. unfold getFilteredSessions in *.
  cbn [setTimeRange onUi ui timeRange sessions] in *.
  apply filter_In in Hs as [H1 H2]. apply filter_In. split; [exact H1|].
  now apply (inRange_wider tz now r r').
Qed.

(** The daily breakdown shows exactly the sessions of the chosen range:
    a session is in some bucket if and only if it is recorded and in range,
    and choosing a wider range never removes a day from the breakdown. *)
Theorem getDayData_follows_range :
  forall (tz now : Z) (w : World),
    (forall s,
        (exists b, In b (getDayData tz (ui w) now) /\ In s (d_sessions b))
        <-> In s (sessions (ui w))
            /\ inRange tz (timeRange (ui w)) now s = true)
    /\ (forall r r',
          rank r <= rank r' ->
          incl (map d_date (getDayData tz (ui (setTimeRange r w)) now))
               (map d_date (getDayData tz (ui (setTimeRange r' w)) now))).
Proof.
  intros tz now w. split.
  - intro s. unfold getDayData. split.
    + intros (b & Hb & Hs). apply groupByDay_In in Hb as [_ Eb].
      rewrite Eb in Hs. cbn [bucketOf d_sessions] in Hs. unfold onDate in Hs.
      apply filter_In in Hs as [Hs _].
      unfold getFilteredSessions in Hs. now apply filter_In in Hs.
    + intros [Hs Hr].
      assert (Hf : In s (getFilteredSessions tz (ui w) now))
        by (unfold getFilteredSessions; apply filter_In; auto).
      exists (bucketOf (getFilteredSessions tz (ui w) now) (s_date s)).
      split.
      * apply groupByDay_In. split; [|reflexivity].
        cbn [bucketOf d_date]. apply In_dates. eauto.
      * cbn [bucketOf d_sessions]. unfold onDate. apply filter_In.
        split; [exact Hf | apply String.eqb_refl].
  - intros r r' Hr d Hd. unfold getDayData in *.
    rewrite groupByDay_dates in *.
    apply (Permutation_in _ (sort_perm localeCompare _)) in Hd.
    apply (Permutation_in _ (Permutation_sym (sort_perm localeCompare _))).
    apply In_dates in Hd as (s & Hs & E). apply In_dates. exists s.
    split; [|exact E].
    now apply (getFilteredSessions_wider tz now w r r' Hr).
Qed.

Lemma getDayData_follows_range_witness :
  incl (map d_date (getDayData 0 (ui (setTimeRange today
          {| ui := timelineState; ls := ls idleWorld |})) noon))
       (map d_date (getDayData 0 (ui (setTimeRange month
          {| ui := timelineState; ls := ls idleWorld |})) noon)).
Proof.
  apply (getDayData_follows_range 0 noon). cbn. lia.
Defined.

End RangeFacts.

(** ** Buckets, routes and the timeline *)

Section MoreAggregationFacts.

Import JS JSDate Controller Aggregation.
Local Open Scope Z_scope.

Lemma flat_map_onDate_cons (x : Session) (l : list Session) (ks : list string) :
  NoDup ks -> In (s_date x) ks ->
  Permutation (flat_map (fun d => onDate d (x :: l)) ks)
              (x :: flat_map (fun d => onDate d l) ks).
Proof.
  induction 1 as [|k ks Hn Hd IH]; intro Hin; [destruct Hin|].
  cbn [flat_map]. unfold onDate at 1. cbn [filter]. fold (onDate k l).
  destruct (String.eqb_spec (s_date x) k) as [E|E].
  - cbn [app]. constructor.
    apply Permutation_app_head.
    assert (F : forall d, In d ks -> onDate d (x :: l) = onDate d l).
    { intros d Hd'. unfold onDate. cbn [filter].
      destruct (String.eqb_spec (s_date x) d) as [E'|_]; [|reflexivity].
      exfalso. apply Hn. now rewrite <- E, E'. }
    assert (G : flat_map (fun d => onDate d (x :: l)) ks
                = flat_map (fun d => onDate d l) ks).
    { clear - F. induction ks as [|k' ks' IH']; [reflexivity|].
      cbn [flat_map]. rewrite F by (now left). f_equal.
      apply IH'. intros d Hd'. apply F. now right. }
    now rewrite G.
  - destruct Hin as [Hin|Hin]; [congruence|].
    rewrite (IH Hin). apply Permutation_sym, Permutation_middle.
Qed.

Lemma flat_map_onDate (l : list Session) :
  forall ks, NoDup ks -> (forall s, In s l -> In (s_date s) ks) ->
             Permutation (flat_map (fun d => onDate d l) ks) l.
Proof.
  induction l as [|x l IH]; intros ks Hn Hin.
  - induction ks as [|k ks IHk]; [reflexivity|].
    cbn. apply IHk; [now inversion Hn | intros s []].
  - rewrite flat_map_onDate_cons by (auto; apply Hin; now left).
    constructor. apply IH; [exact Hn|].
    intros s Hs. apply Hin. now right.
Qed.

(** Grouping by day loses and invents nothing: the sessions of all buckets
    together are the sessions of the list, each once; no bucket is empty and
    no two buckets have the same date, so there are at most as many buckets
    as sessions, and none for an empty list. *)
Theorem groupByDay_partitions :
  forall l : list Session,
    Permutation (List.concat (map d_sessions (groupByDay l))) l
    /\ (forall b, In b (groupByDay l) -> d_sessions b <> [])
    /\ NoDup (map d_date (groupByDay l))
    /\ (List.length (groupByDay l) <= List.length l)%nat
    /\ groupByDay [] = [].
Proof.
  intro l.
  assert (Hsort : Permutation (sort localeCompare (dates l)) (dates l))
    by apply sort_perm.
  assert (Hnd : NoDup (sort localeCompare (dates l))).
  { apply (Permutation_NoDup (Permutation_sym Hsort)), NoDup_dates. }
  assert (P : Permutation (List.concat (map d_sessions (groupByDay l))) l).
  { rewrite groupByDay_spec, map_map. cbn [bucketOf d_sessions].
    rewrite <- flat_map_concat_map.
    apply flat_map_onDate; [exact Hnd|].
    intros s Hs. apply (Permutation_in _ (Permutation_sym Hsort)).
    apply In_dates. eauto. }
  split; [exact P|]. split; [|split; [|split]].
  - intros b Hb. apply groupByDay_In in Hb as [Hd ->].
    cbn [bucketOf d_sessions d_date] in *.
    apply In_dates in Hd as (s & Hs & E). intro H.
    assert (Hin : In s (onDate (d_date b) l)).
    { unfold onDate. apply filter_In. split; [exact Hs|].
      now apply String.eqb_eq. }
    rewrite H in Hin. destruct Hin.
  - rewrite groupByDay_dates. exact Hnd.
  - rewrite <- (length_map d_date), groupByDay_dates.
    rewrite (Permutation_length Hsort).
    assert (Hincl : incl (dates l) (map s_date l)).
    { intros d Hd. apply In_dates in Hd as (s & Hs & <-). now apply in_map. }
    rewrite <- (length_map s_date l).
    apply NoDup_incl_length; [apply NoDup_dates | exact Hincl].
  - reflexivity.
Qed.

Lemma groupByDay_partitions_witness :
  NoDup (map d_date (groupByDay scenario)).
Proof.
  destruct (groupByDay_partitions scenario) as (_ & _ & H & _).
  exact H.
Defined.

Lemma fold_addWorked_none (hs he : Z) (all : list Session) :
  (forall s e, In s all -> s_endTime s = Some e -> e <= hs \/ he <= s_startTime s) ->
  forall worked, fold_left (addWorked hs he) all worked = worked.
Proof.
  induction all as [|s all IH]; intros H worked; [reflexivity|].
  cbn [fold_left]. rewrite IH by (intros; eapply H; [now right | eassumption]).
  unfold addWorked. destruct (s_endTime s) as [e|] eqn:E; [|reflexivity].
  destruct (e =? 0); [reflexivity|].
  destruct (H s e (or_introl eq_refl) E);
    destruct (Z.gtb_spec (Z.min e he) (Z.max (s_startTime s) hs));
    try reflexivity; lia.
Qed.

(** The timeline has one block per hour of the day, numbered 0 to 23; a
    block that no session reaches into reports 0 minutes and 0 per cent, so
    with nothing recorded today and nothing running every block is empty. *)
Theorem timeline_blocks :
  forall (tz now : Z) (c : State),
    map hour (hours tz c now) = map Z.of_nat (seq 0 24)
    /\ (forall all i,
          (forall s e, In s all -> s_endTime s = Some e ->
             e <= setHours tz now i 0 0 0
             \/ setHours tz now i 59 59 999 <= s_startTime s) ->
          workedMinutes (hourBlock tz now all i) = S754_zero false
          /\ workedPercentage (hourBlock tz now all i) = S754_zero false)
    /\ (allSessions c now = [] ->
        forall b, In b (hours tz c now) ->
                  workedMinutes b = S754_zero false
                  /\ workedPercentage b = S754_zero false).
Proof.
  intros tz now c.
  assert (Z0 : forall all i,
             (forall s e, In s all -> s_endTime s = Some e ->
                e <= setHours tz now i 0 0 0
                \/ setHours tz now i 59 59 999 <= s_startTime s) ->
             workedMinutes (hourBlock tz now all i) = S754_zero false
             /\ workedPercentage (hourBlock tz now all i) = S754_zero false).
  { intros all i H. unfold hourBlock. cbn [workedMinutes workedPercentage].
    rewrite fold_addWorked_none by exact H. split; reflexivity. }
  split; [reflexivity|]. split; [exact Z0|].
  intros Hall b Hb. unfold hours in Hb. rewrite Hall in Hb.
  apply in_map_iff in Hb as (i & <- & _).
  apply Z0. intros s e [].
Qed.

Lemma timeline_blocks_witness :
  workedMinutes (hourBlock 0 noon [] 9) = S754_zero false
  /\ workedPercentage (hourBlock 0 noon [] 9) = S754_zero false.
Proof.
  destruct (timeline_blocks 0 noon initialState) as (_ & H & _).
  apply (H [] 9). intros s e [].
Defined.

End MoreAggregationFacts.

Section MoreRouteFacts.

Import Aggregation.
Local Open Scope Z_scope.

Lemma byStart_total (a b : Session) :
  (s_startTime a ?= s_startTime b) = Gt -> (s_startTime b ?= s_startTime a) <> Gt.
Proof.
  intros H1 H2. apply Z.compare_gt_iff in H1. apply Z.compare_gt_iff in H2. lia.
Qed.

(** With the "Replace all" route, what [GET] returns after a [POST] is the
    posted list and nothing else, in ascending order of start time,
    whatever was stored before; the reply counts the posted sessions, and
    posting the same list again changes nothing. *)
Theorem replace_then_list :
  forall (sessions : list Session) (coll : Mongo.Collection),
    let coll' := fst (RouteReplace.POST sessions coll) in
    Permutation (RouteReplace.GET coll') sessions
    /\ StronglySorted (fun a b => s_startTime a <= s_startTime b)
                      (RouteReplace.GET coll')
    /\ snd (RouteReplace.POST sessions coll)
       = Success (Some (Z.of_nat (List.length sessions)))
    /\ RouteReplace.POST sessions coll' = RouteReplace.POST sessions coll.
Proof.
  intros sessions coll. cbv zeta.
  destruct (RouteReplace_POST_replaces sessions coll) as [E _].
  rewrite E. cbn [fst snd].
  split; [apply sort_perm|]. split; [|split].
  - apply Sorted_StronglySorted; [intros x y z; lia|].
    unfold RouteReplace.GET, Mongo.findSorted.
    pose proof (sort_Sorted (fun a b => s_startTime a ?= s_startTime b)
                  byStart_total sessions) as H.
    eapply Sorted_ind with
      (P := fun l => Sorted (fun a b => s_startTime a <= s_startTime b) l);
      [constructor | | exact H].
    intros a l Hl IH Hd. constructor; [exact IH|].
    destruct Hd as [|b l Hab]; constructor.
    destruct (Z.compare_spec (s_startTime a) (s_startTime b)); try lia.
    congruence.
  - reflexivity.
  - apply (proj1 (RouteReplace_POST_replaces sessions sessions)).
Qed.

(** The route of [route.ts] never removes a stored document: after a
    [POST] the collection starts with what it held and ends with the posted
    list; the request fails exactly when the posted list is empty, and then
    the collection is untouched.  Posting a list twice stores it twice. *)
Theorem route_POST_keeps_stored :
  forall (sessions : list Session) (coll : Mongo.Collection),
    Route.GET (fst (Route.POST sessions coll)) = (coll ++ sessions)%list
    /\ (snd (Route.POST sessions coll) = Failed <-> sessions = [])
    /\ Route.GET (fst (Route.POST sessions (fst (Route.POST sessions coll))))
       = (coll ++ sessions ++ sessions)%list.
Proof.
  intros sessions coll. unfold Route.POST, Route.GET, Mongo.insertMany, Mongo.findAll.
  destruct sessions as [|s sessions]; cbn [fst snd].
  - rewrite !app_nil_r. repeat split; auto.
  - split; [reflexivity|]. split; [split; discriminate|].
    now rewrite <- app_assoc.
Qed.

End MoreRouteFacts.

(** ** Date strings in chronological order *)

Section CalendarOrder.

Import JS JSDate Controller Aggregation Calendar.
Local Open Scope Z_scope.

Lemma year_mono (y y' : Z) :
  y <= y' -> daysFromCivil y 0 1 <= daysFromCivil y' 0 1.
Proof.
  intro H. unfold daysFromCivil. cbn [Z.leb Z.compare].
  Z.div_mod_to_equations. lia.
Qed.

Lemma within_year (y m d : Z) :
  0 <= m <= 11 -> 1 <= d -> daysFromCivil y 0 1 <= daysFromCivil y m d.
Proof.
  intros Hm Hd. unfold daysFromCivil. cbn [Z.leb Z.compare].
  destruct (Z.leb_spec m 1); Z.div_mod_to_equations; lia.
Qed.

Lemma month_next (y m : Z) :
  0 <= m <= 10 ->
  daysFromCivil y (m + 1) 1 = daysFromCivil y m 1 + daysInMonth y m.
Proof.
  intro Hm.
  assert (C : m = 0 \/ m = 1 \/ m = 2 \/ m = 3 \/ m = 4 \/ m = 5 \/ m = 6
              \/ m = 7 \/ m = 8 \/ m = 9 \/ m = 10) by lia.
  repeat (destruct C as [C|C]); subst m;
    unfold daysFromCivil, daysInMonth, isLeap;
    cbn [Z.add Pos.add Pos.succ Z.leb Z.eqb Z.compare Pos.compare
         Pos.compare_cont Pos.eqb orb];
    try (Z.div_mod_to_equations; lia).
  destruct (Z.eqb_spec (y mod 4) 0); destruct (Z.eqb_spec (y mod 100) 0);
    destruct (Z.eqb_spec (y mod 400) 0); cbn [negb andb orb];
    Z.div_mod_to_equations; lia.
Qed.

Lemma year_next (y : Z) : daysFromCivil (y + 1) 0 1 = daysFromCivil y 11 1 + 31.
Proof.
  unfold daysFromCivil. cbn [Z.leb Z.compare Pos.compare Pos.compare_cont].
  Z.div_mod_to_equations. lia.
Qed.

Lemma monthStart_mono (y m m' : Z) :
  0 <= m -> m <= m' -> m' <= 11 ->
  daysFromCivil y m 1 <= daysFromCivil y m' 1.
Proof.
  intros H0 H1 H2. unfold daysFromCivil.
  destruct (Z.leb_spec m 1); destruct (Z.leb_spec m' 1);
    Z.div_mod_to_equations; lia.
Qed.

Lemma daysInMonth_bounds (y m : Z) : 28 <= daysInMonth y m <= 31.
Proof.
  unfold daysInMonth.
  destruct (m =? 1); [destruct (isLeap y); lia|].
  destruct ((m =? 3) || (m =? 5) || (m =? 8) || (m =? 10)); lia.
Qed.

(** The day number grows with the date. *)
Lemma daysFromCivil_increasing (a b : Z * Z * Z) :
  validDate a -> validDate b -> lexLt a b ->
  (let '(y, m, d) := a in daysFromCivil y m d)
  < (let '(y, m, d) := b in daysFromCivil y m d).
Proof.
  destruct a as [[y1 m1] d1], b as [[y2 m2] d2].
  intros [Hm1 Hd1] [Hm2 Hd2] H. cbn [lexLt] in H.
  rewrite (daysFromCivil_day y1 m1 d1), (daysFromCivil_day y2 m2 d2).
  assert (Hend : forall y m d, 0 <= m <= 11 -> d <= daysInMonth y m ->
                   daysFromCivil y m 1 + (d - 1) < daysFromCivil (y + 1) 0 1).
  { intros y m d Hm Hd. rewrite year_next.
    destruct (Z.eq_dec m 11) as [->|Hne].
    - pose proof (daysInMonth_bounds y 11). lia.
    - pose proof (month_next y m ltac:(lia)).
      pose proof (monthStart_mono y (m + 1) 11 ltac:(lia) ltac:(lia) ltac:(lia)).
      lia. }
  destruct H as [Hy | [-> [Hm | [-> Hd]]]].
  - pose proof (Hend y1 m1 d1 Hm1 (proj2 Hd1)).
    pose proof (year_mono (y1 + 1) y2 ltac:(lia)).
    pose proof (within_year y2 m2 d2 Hm2 (proj1 Hd2)).
    rewrite (daysFromCivil_day y2 m2 d2) in *. lia.
  - pose proof (month_next y2 m1 ltac:(lia)).
    pose proof (monthStart_mono y2 (m1 + 1) m2 ltac:(lia) ltac:(lia) ltac:(lia)).
    lia.
  - lia.
Qed.

Lemma civilFromDays_valid (n : Z) : validDate (civilFromDays n).
Proof.
  pose proof (civilFromDays_spec n) as H.
  pose proof (civilFromDays_day n) as H'.
  destruct (civilFromDays n) as [[y m] d]. cbn. lia.
Qed.

Lemma lexLt_trichotomy (a b : Z * Z * Z) : lexLt a b \/ a = b \/ lexLt b a.
Proof.
  destruct a as [[y1 m1] d1], b as [[y2 m2] d2]. cbn.
  destruct (Z.lt_trichotomy y1 y2) as [?|[->|?]]; auto.
  destruct (Z.lt_trichotomy m1 m2) as [?|[->|?]]; auto 6.
  destruct (Z.lt_trichotomy d1 d2) as [?|[->|?]]; auto 8.
Qed.

(** A later day has a later date. *)
Lemma civilFromDays_increasing (n1 n2 : Z) :
  n1 < n2 -> lexLt (civilFromDays n1) (civilFromDays n2).
Proof.
  intro H.
  pose proof (civilFromDays_spec n1) as S1.
  pose proof (civilFromDays_spec n2) as S2.
  pose proof (civilFromDays_valid n1) as V1.
  pose proof (civilFromDays_valid n2) as V2.
  destruct (lexLt_trichotomy (civilFromDays n1) (civilFromDays n2)) as [L|[E|L]].
  - exact L.
  - rewrite E in S1. destruct (civilFromDays n2) as [[y m] d]. lia.
  - pose proof (daysFromCivil_increasing _ _ V2 V1 L) as D.
    destruct (civilFromDays n1) as [[y1 m1] d1].
    destruct (civilFromDays n2) as [[y2 m2] d2]. lia.
Qed.

Lemma string_app_assoc (a b c : string) :
  ((a ++ b) ++ c = a ++ (b ++ c))%string.
Proof. induction a as [|x a IH]; cbn; [reflexivity | now rewrite IH]. Qed.

Lemma string_length_app (a b : string) :
  String.length (a ++ b) = (String.length a + String.length b)%nat.
Proof. induction a as [|x a IH]; cbn; [reflexivity | now rewrite IH]. Qed.

Lemma pad_acc (k : nat) : forall n acc, pad k n acc = (pad k n "" ++ acc)%string.
Proof.
  induction k as [|k IH]; intros n acc; cbn [pad]; [reflexivity|].
  rewrite (IH (n / 10) (String (digitChar n) acc)),
          (IH (n / 10) (String (digitChar n) "")).
  rewrite string_app_assoc. reflexivity.
Qed.

Lemma pad_length (k : nat) : forall n, String.length (pad k n "") = k.
Proof.
  induction k as [|k IH]; intro n; cbn [pad]; [reflexivity|].
  rewrite pad_acc, string_length_app, IH. cbn. lia.
Qed.

Lemma compare_app (a b r r' : string) :
  String.length a = String.length b ->
  String.compare (a ++ r) (b ++ r')
  = match String.compare a b with
    | Eq => String.compare r r'
    | c => c
    end.
Proof.
  revert b. induction a as [|x a IH]; intros [|y b] H; try discriminate H.
  - reflexivity.
  - cbn [String.append String.compare].
    destruct (Ascii.compare x y); try reflexivity.
    apply IH. now inversion H.
Qed.

Lemma compare_digitChar (a b : Z) :
  Ascii.compare (digitChar a) (digitChar b) = (a mod 10 ?= b mod 10).
Proof.
  unfold digitChar.
  pose proof (Z.mod_pos_bound a 10 ltac:(lia)) as Ha.
  pose proof (Z.mod_pos_bound b 10 ltac:(lia)) as Hb.
  rewrite <- (Z2Nat.id (a mod 10)) at 2 by lia.
  rewrite <- (Z2Nat.id (b mod 10)) at 2 by lia.
  remember (Z.to_nat (a mod 10)) as i eqn:Ei.
  remember (Z.to_nat (b mod 10)) as j eqn:Ej.
  assert (Hi : (i < 10)%nat) by lia. assert (Hj : (j < 10)%nat) by lia.
  clear Ei Ej Ha Hb.
  do 10 (destruct i as [|i]; [do 10 (destruct j as [|j]; [reflexivity|]); lia|]).
  lia.
Qed.

Lemma compare_by_digits (a b : Z) :
  match a / 10 ?= b / 10 with
  | Eq => a mod 10 ?= b mod 10
  | c => c
  end = (a ?= b).
Proof.
  destruct (Z.compare_spec (a / 10) (b / 10));
    destruct (Z.compare_spec (a mod 10) (b mod 10));
    destruct (Z.compare_spec a b); try reflexivity;
    exfalso; Z.div_mod_to_equations; lia.
Qed.

(** Numbers printed at a fixed width compare as numbers. *)
Lemma compare_pad (k : nat) :
  forall a b, 0 <= a < 10 ^ Z.of_nat k -> 0 <= b < 10 ^ Z.of_nat k ->
              String.compare (pad k a "") (pad k b "") = (a ?= b).
Proof.
  induction k as [|k IH]; intros a b Ha Hb.
  - cbn in Ha, Hb. assert (a = 0) as -> by lia. assert (b = 0) as -> by lia.
    reflexivity.
  - rewrite Nat2Z.inj_succ, Z.pow_succ_r in Ha, Hb by lia.
    cbn [pad]. rewrite (pad_acc k (a / 10)), (pad_acc k (b / 10)).
    rewrite compare_app by (now rewrite !pad_length).
    rewrite IH by (Z.div_mod_to_equations; lia).
    cbn [String.compare]. rewrite compare_digitChar.
    rewrite <- (compare_by_digits a b).
    destruct (a / 10 ?= b / 10); try reflexivity.
    destruct (a mod 10 ?= b mod 10); reflexivity.
Qed.

(** Dates of four-digit years compare, as strings, as dates. *)
Lemma compare_dateString (a b : Z * Z * Z) :
  validDate a -> validDate b ->
  0 <= fst (fst a) <= 9999 -> 0 <= fst (fst b) <= 9999 ->
  (lexLt a b -> localeCompare (dateString a) (dateString b) = Lt)
  /\ String.length (dateString a) = 10%nat.
Proof.
  destruct a as [[y1 m1] d1], b as [[y2 m2] d2].
  intros [Hm1 Hd1] [Hm2 Hd2] Hy1 Hy2. cbn [fst] in Hy1, Hy2.
  pose proof (daysInMonth_bounds y1 m1). pose proof (daysInMonth_bounds y2 m2).
  assert (Y : forall y, 0 <= y <= 9999 -> yearString y = pad 4 y "").
  { intros y Hy. unfold yearString.
    destruct (Z.leb_spec 0 y); destruct (Z.leb_spec y 9999); try lia.
    reflexivity. }
  unfold dateString. rewrite !Y by assumption.
  split.
  - intro L. cbn [lexLt] in L. unfold localeCompare.
    rewrite compare_app by (now rewrite !pad_length).
    rewrite compare_pad by (change (10 ^ Z.of_nat 4) with 10000; lia).
    cbn [String.append String.compare].
    change (Ascii.compare "-" "-") with Eq. cbv iota.
    rewrite compare_app by (now rewrite !pad_length).
    rewrite compare_pad by (change (10 ^ Z.of_nat 2) with 100; lia).
    cbn [String.append String.compare].
    change (Ascii.compare "-" "-") with Eq. cbv iota.
    rewrite compare_pad by (change (10 ^ Z.of_nat 2) with 100; lia).
    destruct L as [Hy | [-> [Hm | [-> Hd]]]].
    + apply Z.compare_lt_iff in Hy. now rewrite Hy.
    + rewrite Z.compare_refl.
      assert (Hm' : m1 + 1 < m2 + 1) by lia.
      apply Z.compare_lt_iff in Hm'. now rewrite Hm'.
    + rewrite !Z.compare_refl. now apply Z.compare_lt_iff.
  - rewrite !string_length_app, !pad_length. reflexivity.
Qed.

Lemma fourDigitYear_civil (t : Z) :
  fourDigitYear t -> 0 <= fst (fst (civilFromDays (day t))) <= 9999.
Proof.
  unfold fourDigitYear. intro H.
  assert (Hn : -719528 <= day t <= 2932896)
    by (unfold day, msPerDay; Z.div_mod_to_equations; lia).
  assert (Lo : civilFromDays (-719528) = (0, 0, 1)) by reflexivity.
  assert (Hi : civilFromDays 2932896 = (9999, 11, 31)) by reflexivity.
  split.
  - destruct (Z.eq_dec (day t) (-719528)) as [->|Hne]; [rewrite Lo; cbn; lia|].
    pose proof (civilFromDays_increasing (-719528) (day t) ltac:(lia)) as L.
    rewrite Lo in L. destruct (civilFromDays (day t)) as [[y m] d].
    cbn in L |- *. lia.
  - destruct (Z.eq_dec (day t) 2932896) as [->|Hne]; [rewrite Hi; cbn; lia|].
    pose proof (civilFromDays_increasing (day t) 2932896 ltac:(lia)) as L.
    rewrite Hi in L. destruct (civilFromDays (day t)) as [[y m] d].
    cbn in L |- *. lia.
Qed.

Lemma StronglySorted_tail {A : Type} (R : A -> A -> Prop) (a b : list A) :
  StronglySorted R (a ++ b) -> StronglySorted R b.
Proof.
  induction a as [|x a IH]; cbn; [auto|].
  intro H. apply IH. now inversion H.
Qed.

(** The date field orders sessions as the calendar does.  For start
    instants in the years 0000 to 9999 the date is ten characters long, two
    instants of the same UTC day get the same date, and an instant of a
    later UTC day gets a date that sorts after; so the buckets of the daily
    breakdown, sorted by their date strings, come in chronological order. *)
Theorem dates_sort_chronologically :
  forall (t1 t2 : Z),
    fourDigitYear t1 -> fourDigitYear t2 ->
    String.length (isoDate t1) = 10%nat
    /\ (day t1 = day t2 -> isoDate t1 = isoDate t2)
    /\ (day t1 < day t2 -> localeCompare (isoDate t1) (isoDate t2) = Lt)
    /\ (forall l before b1 between b2 after s1 s2,
          groupByDay l = (before ++ b1 :: between ++ b2 :: after)%list ->
          In s1 (d_sessions b1) -> In s2 (d_sessions b2) ->
          s_date s1 = isoDate t1 -> s_date s2 = isoDate t2 ->
          day t1 < day t2).
Proof.
  intros t1 t2 H1 H2.
  pose proof (fourDigitYear_civil t1 H1) as Y1.
  pose proof (fourDigitYear_civil t2 H2) as Y2.
  pose proof (civilFromDays_valid (day t1)) as V1.
  pose proof (civilFromDays_valid (day t2)) as V2.
  destruct (compare_dateString _ _ V1 V2 Y1 Y2) as [C12 Len].
  destruct (compare_dateString _ _ V2 V1 Y2 Y1) as [C21 _].
  rewrite !isoDate_dateString.
  split; [exact Len|]. split; [now intros ->|].
  split; [intro H; apply C12; now apply civilFromDays_increasing|].
  intros l before b1 between b2 after s1 s2 Hl Hs1 Hs2 E1 E2.
  assert (Hd : dateLt (d_date b1) (d_date b2)).
  { pose proof (sort_ascending (dates l) (NoDup_dates l)) as S.
    rewrite <- groupByDay_dates, Hl, map_app in S. cbn [map] in S.
    rewrite map_app in S. cbn [map] in S.
    apply StronglySorted_tail in S.
    inversion S as [|? ? _ F]; subst.
    rewrite Forall_forall in F. apply F.
    apply in_or_app. right. now left. }
  assert (B1 : d_date b1 = s_date s1).
  { assert (Hb : In b1 (groupByDay l))
      by (rewrite Hl; apply in_or_app; right; now left).
    apply groupByDay_In in Hb as [_ Eb]. rewrite Eb in Hs1.
    cbn [bucketOf d_sessions] in Hs1. unfold onDate in Hs1.
    apply filter_In in Hs1 as [_ Hs1]. now apply String.eqb_eq in Hs1. }
  assert (B2 : d_date b2 = s_date s2).
  { assert (Hb : In b2 (groupByDay l)).
    { rewrite Hl. apply in_or_app. right. right.
      apply in_or_app. right. now left. }
    apply groupByDay_In in Hb as [_ Eb]. rewrite Eb in Hs2.
    cbn [bucketOf d_sessions] in Hs2. unfold onDate in Hs2.
    apply filter_In in Hs2 as [_ Hs2]. now apply String.eqb_eq in Hs2. }
  rewrite B1, B2, E1, E2 in Hd. unfold dateLt in Hd.
  destruct (Z.lt_trichotomy (day t1) (day t2)) as [L|[E|G]]; [exact L| |].
  - rewrite E, localeCompare_refl in Hd. discriminate Hd.
  - pose proof (C21 (civilFromDays_increasing _ _ G)) as Hgt.
    unfold localeCompare in *. rewrite String.compare_antisym, Hgt in Hd.
    discriminate Hd.
Qed.

Lemma dates_sort_chronologically_witness :
  localeCompare (isoDate t0) (isoDate (t0 + msPerDay)) = Lt.
Proof.
  destruct (dates_sort_chronologically t0 (t0 + msPerDay)) as (_ & _ & H & _).
  - unfold fourDigitYear, t0. lia.
  - unfold fourDigitYear, t0, msPerDay. lia.
  - apply H. vm_compute. reflexivity.
Defined.

End CalendarOrder.

(** ** The calendar dates the ranges are cut at *)

Section RangeCalendar.

Import JS JSDate Controller Aggregation Calendar Ranges Runs.
Local Open Scope Z_scope.

(** The date of the day number of a date is that date. *)
Lemma civilFromDays_daysFromCivil (y m d : Z) :
  validDate (y, m, d) -> civilFromDays (daysFromCivil y m d) = (y, m, d).
Proof.
  intro V.
  pose proof (civilFromDays_spec (daysFromCivil y m d)) as S.
  pose proof (civilFromDays_valid (daysFromCivil y m d)) as V'.
  destruct (lexLt_trichotomy (civilFromDays (daysFromCivil y m d)) (y, m, d))
    as [L|[E|L]].
  - pose proof (daysFromCivil_increasing _ _ V' V L) as D.
    destruct (civilFromDays (daysFromCivil y m d)) as [[y' m'] d'].
    cbn in D. lia.
  - exact E.
  - pose proof (daysFromCivil_increasing _ _ V V' L) as D.
    destruct (civilFromDays (daysFromCivil y m d)) as [[y' m'] d'].
    cbn in D. lia.
Qed.

(** The local date and the local time of day at local midnight of a day
    number. *)
Lemma local_midnight (tz n : Z) :
  localCivil tz (n * msPerDay - tz * msPerMinute) = civilFromDays n
  /\ timeWithinDay (n * msPerDay - tz * msPerMinute + tz * msPerMinute) = 0.
Proof.
  unfold localCivil, day, timeWithinDay.
  replace (n * msPerDay - tz * msPerMinute + tz * msPerMinute)
    with (n * msPerDay) by lia.
  unfold msPerDay. rewrite Z.div_mul, Z.mod_mul by lia. auto.
Qed.

(** The month before month [m] of year [y]. *)
Lemma makeDay_month_back (y m d : Z) :
  0 <= m <= 11 ->
  makeDay y (m - 1) d
  = daysFromCivil (if m =? 0 then y - 1 else y) (if m =? 0 then 11 else m - 1) 1
    + (d - 1).
Proof.
  intro Hm. destruct (Z.eqb_spec m 0) as [->|Hz].
  - unfold makeDay. change ((0 - 1) / 12) with (-1).
    change ((0 - 1) mod 12) with 11. f_equal.
  - now rewrite makeDay_in_range by lia.
Qed.

(** The boundaries, given the local date of now. *)
Lemma rangeBoundary_at (tz now y m d : Z) :
  localCivil tz now = (y, m, d) ->
  rangeBoundary tz today now = localTime tz y m d
  /\ rangeBoundary tz month now = localTime tz y (m - 1) d
  /\ rangeBoundary tz year now = localTime tz (y - 1) m d.
Proof. intro E. unfold rangeBoundary. rewrite E. auto. Qed.

(** The same day of the previous month, or the days beyond its end. *)
Lemma month_back_date (y m d : Z) :
  0 <= m <= 11 -> 1 <= d <= daysInMonth y m ->
  forall py pm,
    py = (if m =? 0 then y - 1 else y) -> pm = (if m =? 0 then 11 else m - 1) ->
    (d <= daysInMonth py pm -> civilFromDays (makeDay y (m - 1) d) = (py, pm, d))
    /\ (daysInMonth py pm < d ->
        civilFromDays (makeDay y (m - 1) d) = (y, m, d - daysInMonth py pm)).
Proof.
  intros Hm Hd py pm -> ->. rewrite makeDay_month_back by lia. split.
  - intro Hle. rewrite <- daysFromCivil_day. apply civilFromDays_daysFromCivil.
    cbn [validDate]. destruct (Z.eqb_spec m 0); lia.
  - intro Hgt. destruct (Z.eqb_spec m 0) as [->|Hz].
    + exfalso. change (daysInMonth (y - 1) 11) with 31 in Hgt.
      pose proof (daysInMonth_bounds y 0). lia.
    + pose proof (month_next y (m - 1) ltac:(lia)) as Hn.
      replace (m - 1 + 1) with m in Hn by lia.
      replace (daysFromCivil y (m - 1) 1 + (d - 1))
        with (daysFromCivil y m 1 + (d - daysInMonth y (m - 1) - 1)) by lia.
      rewrite <- daysFromCivil_day. apply civilFromDays_daysFromCivil.
      cbn [validDate].
      pose proof (daysInMonth_bounds y (m - 1)).
      pose proof (daysInMonth_bounds y m). lia.
Qed.

Lemma february (y : Z) :
  28 <= daysInMonth y 1 <= 29 /\ (daysInMonth y 1 = 29 -> y mod 4 = 0).
Proof.
  unfold daysInMonth, isLeap. cbn [Z.eqb Pos.eqb].
  destruct (Z.eqb_spec (y mod 4) 0); cbn [andb]; [|lia].
  destruct (negb (y mod 100 =? 0) || (y mod 400 =? 0)); lia.
Qed.

(** The same day of the previous year, 1 March for 29 February. *)
Lemma year_back_date (y m d : Z) :
  0 <= m <= 11 -> 1 <= d <= daysInMonth y m ->
  (~ (m = 1 /\ d = 29) -> civilFromDays (makeDay (y - 1) m d) = (y - 1, m, d))
  /\ (m = 1 -> d = 29 -> civilFromDays (makeDay (y - 1) m d) = (y - 1, 2, 1)).
Proof.
  intros Hm Hd. rewrite makeDay_in_range by lia.
  pose proof (february y) as [Hb Hl]. pose proof (february (y - 1)) as [Hb' Hl'].
  split.
  - intro Hn. rewrite <- daysFromCivil_day. apply civilFromDays_daysFromCivil.
    cbn [validDate]. destruct (Z.eq_dec m 1) as [->|Hne]; [lia|].
    assert (E : daysInMonth (y - 1) m = daysInMonth y m).
    { unfold daysInMonth. destruct (Z.eqb_spec m 1); [contradiction | reflexivity]. }
    rewrite E. lia.
  - intros -> ->.
    assert (E28 : daysInMonth (y - 1) 1 = 28).
    { assert (daysInMonth y 1 = 29) as H29 by lia.
      specialize (Hl H29).
      destruct (Z.eq_dec (daysInMonth (y - 1) 1) 29) as [E|E]; [|lia].
      specialize (Hl' E). exfalso. Z.div_mod_to_equations. lia. }
    pose proof (month_next (y - 1) 1 ltac:(lia)) as Hn.
    change (1 + 1) with 2 in Hn.
    replace (daysFromCivil (y - 1) 1 1 + (29 - 1))
      with (daysFromCivil (y - 1) 2 1) by lia.
    apply civilFromDays_daysFromCivil. cbn [validDate].
    change (daysInMonth (y - 1) 2) with 31. lia.
Qed.

(** In a zone that keeps one offset [tz] from UTC, each range is cut at
    local midnight of a calendar date: today's date; the day seven days
    before it; the same day of the previous month, or, when that month is
    too short, as many days into the present month as the day exceeds it (31
    March gives 3 March, or 2 March in a leap year); the same day of the
    previous year, with 1 March for 29 February.  A session that starts
    exactly on the boundary is in the range, one whose start is not a valid
    time value is in none, and every session of a range is in each wider
    range. *)
Theorem ranges_nest :
  forall (tz now : Z),
    sane now -> -720 <= tz <= 840 ->
    let '(y, m, d) := localCivil tz now in
    let py := if m =? 0 then y - 1 else y in
    let pm := if m =? 0 then 11 else m - 1 in
    let timeOfDay (t : Z) := timeWithinDay (t + tz * msPerMinute) in
    rangeBoundary tz today now = now - timeOfDay now
    /\ localCivil tz (rangeBoundary tz today now) = (y, m, d)
    /\ rangeBoundary tz week now = rangeBoundary tz today now - 7 * msPerDay
    /\ timeOfDay (rangeBoundary tz month now) = 0
    /\ (d <= daysInMonth py pm ->
        localCivil tz (rangeBoundary tz month now) = (py, pm, d))
    /\ (daysInMonth py pm < d ->
        localCivil tz (rangeBoundary tz month now)
        = (y, m, d - daysInMonth py pm))
    /\ timeOfDay (rangeBoundary tz year now) = 0
    /\ (~ (m = 1 /\ d = 29) ->
        localCivil tz (rangeBoundary tz year now) = (y - 1, m, d))
    /\ (m = 1 -> d = 29 ->
        localCivil tz (rangeBoundary tz year now) = (y - 1, 2, 1))
    /\ (forall r s, validTime (s_startTime s) = true ->
                    (inRange tz r now s = true
                     <-> rangeBoundary tz r now <= s_startTime s))
    /\ (forall r s, validTime (s_startTime s) = false ->
                    inRange tz r now s = false)
    /\ (forall w r r',
          rank r <= rank r' ->
          incl (getFilteredSessions tz (ui (setTimeRange r w)) now)
               (getFilteredSessions tz (ui (setTimeRange r' w)) now)).
Proof.
  intros tz now _ _.
  destruct (rangeBoundary_spec tz now) as (E1 & E2 & _).
  cbv zeta in E1, E2.
  pose proof (civilFromDays_spec (day (now + tz * msPerMinute))) as S.
  pose proof (civilFromDays_valid (day (now + tz * msPerMinute))) as V.
  fold (localCivil tz now) in S, V.
  destruct (localCivil tz now) as [[y m] d] eqn:Ec.
  destruct S as (Sn & Hm & _). cbn [validDate] in V. destruct V as [_ Hd].
  destruct (rangeBoundary_at tz now y m d Ec) as (_ & Bm & By).
  unfold localTime in Bm, By.
  destruct (local_midnight tz (day (now + tz * msPerMinute))) as [L0 _].
  destruct (local_midnight tz (makeDay y (m - 1) d)) as [Lm Tm].
  destruct (local_midnight tz (makeDay (y - 1) m d)) as [Ly Ty].
  destruct (month_back_date y m d Hm Hd _ _ eq_refl eq_refl) as [M1 M2].
  destruct (year_back_date y m d Hm Hd) as [Y1 Y2].
  rewrite <- E1 in L0. fold (localCivil tz now) in L0. rewrite Ec in L0.
  rewrite <- Bm in Lm, Tm. rewrite <- By in Ly, Ty.
  split.
  { rewrite E1. unfold timeWithinDay, day, msPerDay.
    Z.div_mod_to_equations. lia. }
  split; [exact L0|].
  split; [rewrite E2, E1; reflexivity|].
  split; [exact Tm|].
  split; [intro H; rewrite Lm; now apply M1|].
  split; [intro H; rewrite Lm; now apply M2|].
  split; [exact Ty|].
  split; [intro H; rewrite Ly; now apply Y1|].
  split; [intros H1 H2; rewrite Ly; now apply Y2|].
  split.
  { intros r s Hv. unfold inRange. rewrite Hv. cbn [andb]. apply Z.leb_le. }
  split.
  { intros r s Hv. unfold inRange. now rewrite Hv. }
  intros w r r' Hr. now apply getFilteredSessions_wider.
Qed.

Lemma ranges_nest_witness :
  localCivil 0 (rangeBoundary 0 month 1711886400000) = (2024, 2, 2).
Proof.
  pose proof (ranges_nest 0 1711886400000) as H.
  replace (localCivil 0 1711886400000) with (2024, 2, 31) in H
    by (vm_compute; reflexivity).
  cbv zeta in H.
  destruct H as (_ & _ & _ & _ & _ & H & _).
  - unfold sane. lia.
  - lia.
  - apply H. vm_compute. reflexivity.
Defined.

End RangeCalendar.
